(** * A shallow embedding of [twisted/conch/scripts/ckeygen.py]

    The script orchestrates key generation, fingerprinting, passphrase
    changes and public-key export around the [keys] module of
    twisted.conch (the crypto provider) and the local filesystem.

    Model:
    - the filesystem is a [gmap] from paths to file entries (bytes and
      permission bits);
    - the terminal is one stream of lines consumed by [input] and
      [getpass] alike (an exhausted stream raises [EOFError]);
    - every prompt, print, file read, write and chmod is appended to an
      event log (newest first), so that the order of side effects can be
      inspected;
    - the crypto provider ([keys.Key] generation, serialisation, parsing,
      fingerprints) is an explicit record of functions: every theorem
      holds for every provider;
    - Python exceptions and [sys.exit] are outcomes of a state/exception
      monad. *)

From Stdlib Require Import ZArith String Ascii List Bool.
From stdpp Require Import base gmap strings list.
Import ListNotations.

Open Scope string_scope.

(* ================================================================== *)
(** ** Python values, exceptions and outcomes *)

(** The exceptions the modelled code raises or catches. *)
Inductive Exc :=
| EncryptedKeyError (msg : string)
| BadKeyError (msg : string)
| BadFingerPrintFormat (msg : string)
| FileNotFoundError
| OSError
| EOFError
| IndexError
| KeyError
| ValueError
| UnicodeEncodeError
| LibraryError (msg : string).

(** [str(e)] for the exceptions whose message the script prints. *)
Definition exc_str (e : Exc) : string :=
  match e with
  | EncryptedKeyError m | BadKeyError m | BadFingerPrintFormat m
  | LibraryError m => m
  | FileNotFoundError => "No such file or directory"
  | OSError => "OSError"
  | EOFError => ""
  | IndexError => "string index out of range"
  | KeyError => "KeyError"
  | ValueError => "invalid literal for int()"
  | UnicodeEncodeError => "'ascii' codec can't encode character"
  end.

(** Outcome of a computation: a value, [sys.exit(msg)] (a [SystemExit],
    not caught by [except Exception]) or a raised exception. *)
Inductive Res (A : Type) :=
| Ret (a : A)
| Exit (msg : option string)
| Raise (e : Exc).
Arguments Ret {A} a.
Arguments Exit {A} msg.
Arguments Raise {A} e.

(** A value of a command-line option: [None], a string, or an [int] the
    script stored there itself (as in [options["bits"] = 2048]). *)
Inductive PyVal :=
| PyNone
| PyStr (s : string)
| PyInt (z : Z).

Definition truthy (v : PyVal) : bool :=
  match v with
  | PyNone => false
  | PyStr s => negb (String.eqb s "")
  | PyInt z => negb (Z.eqb z 0)
  end.

(** Truthiness of an optional string option ([None] or [""] is falsy). *)
Definition truthy_s (o : option string) : bool :=
  match o with
  | None => false
  | Some s => negb (String.eqb s "")
  end.

(* ================================================================== *)
(** ** Filesystem, terminal and event log *)

Record FileEntry := mkFile { f_content : string; f_mode : Z }.

Inductive Event :=
| EPrompt (s : string)
| EPrint (s : string)
| ERead (path : string)
| EWrite (path : string) (mode : Z)   (* a file opened for writing, with its mode *)
| EChmod (path : string) (mode : Z)
| EUnlink (path : string)
| ERename (src dst : string).

Record St := mkSt {
  st_fs : gmap string FileEntry;
  st_inp : list string;
  st_log : list Event }.

(** How opening a path for writing and writing to it ends: the open
    fails (nothing is created or truncated), or the write or the close
    fails after the first [n] bytes reached the file (disk full, quota,
    I/O error), or all goes well. *)
Inductive WriteFault :=
| WOk
| WOpenFails
| WWriteFails (n : nat).

(** The process environment the script observes. *)
Record Env := mkEnv {
  env_windows : bool;                  (* platform.system() == "Windows" *)
  env_home : string;                   (* $HOME, used by os.path.expanduser *)
  env_user : string;                   (* getpass.getuser() *)
  env_host : string;                   (* socket.gethostname() *)
  env_umask : Z;                       (* process umask *)
  env_fault : string -> WriteFault;    (* opening and writing a path *)
  env_unlink_fails : string -> bool;   (* os.unlink(path) raises *)
  env_rename_fails : string -> bool;   (* os.rename(_, path) raises *)
  env_temp : string -> string          (* FilePath(path).temporarySibling(),
                                          a random name beside the path *)
}.

(** Mode of a file created by [open(path, "wb")]: [0o666 & ~umask]. *)
Definition open_mode (env : Env) : Z :=
  Z.land 438 (Z.lnot (env_umask env)).

(** Mode of a file created by [FilePath.create()], i.e. [os.open] with its
    default mode: [0o777 & ~umask]. *)
Definition creation_mode (env : Env) : Z :=
  Z.land 511 (Z.lnot (env_umask env)).

(* ================================================================== *)
(** ** The state/exception monad *)

Definition M (A : Type) : Type := St -> Res A * St.

Definition ret {A} (a : A) : M A := fun s => (Ret a, s).

Definition bind {A B} (m : M A) (k : A -> M B) : M B := fun s =>
  match m s with
  | (Ret a, s') => k a s'
  | (Exit msg, s') => (Exit msg, s')
  | (Raise e, s') => (Raise e, s')
  end.

Notation "'do' x <- m ; k" := (bind m (fun x => k))
  (at level 200, x name, m at level 100, k at level 200).
Notation "'do_' m ; k" := (bind m (fun _ => k))
  (at level 200, m at level 100, k at level 200).

Definition raise {A} (e : Exc) : M A := fun s => (Raise e, s).
Definition sys_exit {A} (msg : option string) : M A := fun s => (Exit msg, s).

(** [try: m except ...]: the handler returns [None] for exceptions it
    does not catch; a handler's own exceptions propagate. *)
Definition try_ {A} (m : M A) (h : Exc -> option (M A)) : M A := fun s =>
  match m s with
  | (Raise e, s') =>
      match h e with
      | Some k => k s'
      | None => (Raise e, s')
      end
  | r => r
  end.

Definition log_ev (e : Event) : M unit := fun s =>
  (Ret tt, mkSt (st_fs s) (st_inp s) (e :: st_log s)).

Definition print (msg : string) : M unit := log_ev (EPrint msg).

(** [input(prompt)] and [getpass.getpass(prompt)]: show the prompt, read
    the next line of the terminal. *)
Definition read_line (prompt : string) : M string := fun s =>
  let s1 := mkSt (st_fs s) (st_inp s) (EPrompt prompt :: st_log s) in
  match st_inp s1 with
  | [] => (Raise EOFError, s1)
  | l :: rest => (Ret l, mkSt (st_fs s1) rest (st_log s1))
  end.

Definition input := read_line.
Definition getpass := read_line.

(** [os.path.exists(path)]. *)
Definition path_exists (p : string) : M bool := fun s =>
  (Ret (bool_decide (is_Some (st_fs s !! p))), s).

(** Read the bytes of a file ([FileNotFoundError] if it is absent). *)
Definition read_file (p : string) : M string := fun s =>
  let s1 := mkSt (st_fs s) (st_inp s) (ERead p :: st_log s) in
  match st_fs s !! p with
  | None => (Raise FileNotFoundError, s1)
  | Some f => (Ret (f_content f), s1)
  end.

(** Open [p] for writing (creating it with mode [m] or truncating it in
    place), write [data] and close it, as [env_fault] decides. *)
Definition write_file (env : Env) (p : string) (m : Z) (data : string) : M unit :=
  fun s =>
  match env_fault env p with
  | WOpenFails => (Raise OSError, s)
  | WWriteFails n =>
      (Raise OSError, mkSt (<[p := mkFile (substring 0 n data) m]> (st_fs s)) (st_inp s)
                           (EWrite p m :: st_log s))
  | WOk =>
      (Ret tt, mkSt (<[p := mkFile data m]> (st_fs s)) (st_inp s)
                    (EWrite p m :: st_log s))
  end.

(** [os.unlink(p)]. *)
Definition os_unlink (env : Env) (p : string) : M unit := fun s =>
  if env_unlink_fails env p then (Raise OSError, s)
  else match st_fs s !! p with
       | None => (Raise FileNotFoundError, s)
       | Some _ => (Ret tt, mkSt (delete p (st_fs s)) (st_inp s) (EUnlink p :: st_log s))
       end.

(** [os.rename(src, dst)]: the entry moves, replacing [dst]. *)
Definition os_rename (env : Env) (src dst : string) : M unit := fun s =>
  if env_rename_fails env dst then (Raise OSError, s)
  else match st_fs s !! src with
       | None => (Raise FileNotFoundError, s)
       | Some f => (Ret tt, mkSt (<[dst := f]> (delete src (st_fs s))) (st_inp s)
                                (ERename src dst :: st_log s))
       end.

(** [FilePath.setContent(data)] (twisted.python.filepath, outside the
    ckeygen script):
<<
    sib = self.temporarySibling(ext)
    with sib.open("w") as f:
        f.write(content)
    if platform.isWindows() and exists(self.path):
        os.unlink(self.path)
    os.rename(sib.path, self.asBytesMode().path)
>>
    [sib.open("w")] creates the sibling with [os.open(path, O_EXCL | O_CREAT
    | ...)] and the default mode, so it fails on an existing sibling and
    the file gets [0o777 & ~umask]; the rename gives the path that file,
    mode included.  Nothing is cleaned up on failure. *)
Definition setContent (env : Env) (p : string) (data : string) : M unit :=
  let sib := env_temp env p in
  do taken <- path_exists sib;
  if taken then raise OSError
  else
    do_ write_file env sib (creation_mode env) data;
    do_ (if env_windows env
         then (do ex <- path_exists p; if ex then os_unlink env p else ret tt)
         else ret tt);
    os_rename env sib p.

(** The events of a successful [setContent env p]: the temporary sibling
    written with the creation mode, [p] unlinked first (Windows, when it
    exists), then the rename; newest first. *)
Definition set_events (env : Env) (p : string) (unlinked : bool) : list Event :=
  (ERename (env_temp env p) p :: (if unlinked then [EUnlink p] else [])
   ++ [EWrite (env_temp env p) (creation_mode env)])%list.

(** [FilePath.chmod(mode)], i.e. [os.chmod(path, mode)]. *)
Definition chmod (p : string) (mode : Z) : M unit := fun s =>
  match st_fs s !! p with
  | None => (Raise FileNotFoundError, s)
  | Some f =>
      (Ret tt, mkSt (<[p := mkFile (f_content f) mode]> (st_fs s)) (st_inp s)
                    (EChmod p mode :: st_log s))
  end.

(** [with open(path, "wb") as fd: fd.write(data)]: truncates an existing
    file in place (its permission bits are kept) or creates it with
    [0o666 & ~umask]; a failed write or close leaves what was written. *)
Definition open_write (env : Env) (p : string) (data : string) : M unit := fun s =>
  write_file env p (match st_fs s !! p with
                    | Some f => f_mode f
                    | None => open_mode env
                    end) data s.

(* ================================================================== *)
(** ** Keys and the crypto provider ([twisted.conch.ssh.keys]) *)

Inductive KeyType := RSA | DSA | EC | Ed25519.

Record Key := mkKey { key_kind : KeyType; key_size : Z; key_data : Z }.

(** [keys.Key.type()]: the names [KeyTypeMapping] in [_saveKey] expects. *)
Definition key_type (k : Key) : string :=
  match key_kind k with
  | RSA => "RSA" | DSA => "DSA" | EC => "EC" | Ed25519 => "Ed25519"
  end.

Inductive Curve := SECP256R1 | SECP384R1 | SECP521R1.

(** What a generator asks the cryptography backend for. *)
Inductive GenRequest :=
| GenRSA (key_size : Z) (public_exponent : Z)
| GenDSA (key_size : Z)
| GenEC (curve : Curve)
| GenEd25519.

Inductive FingerprintFormat := MD5_HEX | SHA256_BASE64.

Definition format_repr (f : FingerprintFormat) : string :=
  match f with
  | MD5_HEX => "<FingerprintFormats=MD5_HEX>"
  | SHA256_BASE64 => "<FingerprintFormats=SHA256_BASE64>"
  end.

(** Result of parsing key bytes ([keys.Key.fromString]). *)
Inductive LoadRes :=
| Loaded (k : Key)
| LEncrypted (msg : string)   (* EncryptedKeyError *)
| LBad (msg : string).        (* BadKeyError *)

(** The external key library. Serialisers may raise. *)
Record Provider := mkProvider {
  (* rsa/dsa/ec/ed25519 generate_private_key, wrapped in keys.Key *)
  p_generate : GenRequest -> Res Key;
  (* key.toString("openssh", subtype=..., passphrase=...) *)
  p_private_bytes : Key -> string -> string -> Res string;
  (* key.public().toString("openssh", comment=...) *)
  p_public_bytes : Key -> option string -> Res string;
  (* keys.Key.fromString(data, passphrase=...) *)
  p_fromString : string -> option string -> LoadRes;
  (* key.fingerprint(format) *)
  p_fingerprint : Key -> FingerprintFormat -> string }.

Definition lift {A} (r : Res A) : M A := fun s => (r, s).

Definition fromString (prov : Provider) (data : string) (pass : option string)
  : M Key :=
  match p_fromString prov data pass with
  | Loaded k => ret k
  | LEncrypted m => raise (EncryptedKeyError m)
  | LBad m => raise (BadKeyError m)
  end.

(** [keys.Key.fromFile(filename, passphrase=...)]. *)
Definition fromFile (prov : Provider) (p : string) (pass : option string)
  : M Key :=
  do data <- read_file p; fromString prov data pass.

(* ================================================================== *)
(** ** String helpers of the Python runtime *)

(** Text is a sequence of code points 0-255 (one [ascii] each, read as
    Latin-1).  [str.isspace] on them: tab to carriage return, the
    separators U+001C-U+001F, space, U+0085 and U+00A0.  [int()] and
    [str.strip()] use the same set. *)
Definition is_space (c : ascii) : bool :=
  match nat_of_ascii c with
  | 9 | 10 | 11 | 12 | 13 | 28 | 29 | 30 | 31 | 32 | 133 | 160 => true
  | _ => false
  end.

Fixpoint drop_while (p : ascii -> bool) (l : list ascii) : list ascii :=
  match l with
  | [] => []
  | c :: r => if p c then drop_while p r else l
  end.

(** [s.strip()] and [s.rstrip(chars)]. *)
Definition strip (s : string) : string :=
  string_of_list_ascii
    (rev (drop_while is_space (rev (drop_while is_space (list_ascii_of_string s))))).

Definition rstrip_char (c : ascii) (s : string) : string :=
  string_of_list_ascii
    (rev (drop_while (fun d => Ascii.eqb d c) (rev (list_ascii_of_string s)))).

(** [str(n)] of a Python int. *)
Fixpoint dec_digits (fuel : nat) (n : N) (acc : string) : string :=
  match fuel with
  | O => acc
  | S f =>
      let acc' := String (ascii_of_N (48 + N.modulo n 10)) acc in
      let q := N.div n 10 in
      if N.eqb q 0 then acc' else dec_digits f q acc'
  end.

Definition str_of_Z (z : Z) : string :=
  let n := Z.to_N (Z.abs z) in
  let ds := dec_digits (S (N.size_nat n)) n "" in
  if Z.ltb z 0 then "-" ++ ds else ds.

Definition digit_val (c : ascii) : option Z :=
  let n := nat_of_ascii c in
  if (48 <=? n)%nat && (n <=? 57)%nat then Some (Z.of_nat n - 48)%Z else None.

(** Digits with single underscores between them, as [int()] accepts. *)
Fixpoint parse_digits (l : list ascii) (acc : Z) (started after_us : bool)
  : option Z :=
  match l with
  | [] => if started && negb after_us then Some acc else None
  | c :: r =>
      match digit_val c with
      | Some d => parse_digits r (acc * 10 + d)%Z true false
      | None =>
          if Ascii.eqb c "_" && started && negb after_us
          then parse_digits r acc started true else None
      end
  end.

(** [int(s)] for a string: surrounding whitespace, an optional sign, then
    decimal digits. *)
Definition parse_int (s : string) : option Z :=
  match list_ascii_of_string (strip s) with
  | "-"%char :: r => option_map Z.opp (parse_digits r 0 false false)
  | "+"%char :: r => parse_digits r 0 false false
  | l => parse_digits l 0 false false
  end.

Definition py_int (v : PyVal) : M Z :=
  match v with
  | PyInt z => ret z
  | PyStr s => match parse_int s with Some z => ret z | None => raise ValueError end
  | PyNone => raise ValueError
  end.

(** Whether [s.encode("ascii")] succeeds: every code point is below 128. *)
Definition is_ascii (s : string) : bool :=
  forallb (fun c => Nat.ltb (nat_of_ascii c) 128) (list_ascii_of_string s).

Definition py_str (v : PyVal) : string :=
  match v with
  | PyNone => "None"
  | PyStr s => s
  | PyInt z => str_of_Z z
  end.

(** [os.path.expanduser] for the ["~/..."] paths the script builds; other
    paths are returned unchanged. *)
Definition expanduser (env : Env) (p : string) : string :=
  match p with
  | String "~" (String "/" rest) => rstrip_char "/" (env_home env) ++ "/" ++ rest
  | _ => p
  end.

(** What follows the last separator of a path. *)
Definition last_component (sep : ascii -> bool) (l : list ascii) : list ascii :=
  rev (List.fold_left (fun acc c => if sep c then [] else c :: acc) l []).

Definition is_sep_w (c : ascii) : bool := Ascii.eqb c "\" || Ascii.eqb c "/".

Fixpoint find_index (f : ascii -> bool) (l : list ascii) : option nat :=
  match l with
  | [] => None
  | c :: r => if f c then Some 0 else option_map S (find_index f r)
  end.

(** [normp[:8].upper() == "\\?\UNC\"], with [/] read as [\]. *)
Definition unc_prefix (l : list ascii) : bool :=
  match l with
  | a :: b :: q :: d :: u :: n :: c :: e :: _ =>
      is_sep_w a && is_sep_w b && Ascii.eqb q "?" && is_sep_w d &&
      (Ascii.eqb u "u" || Ascii.eqb u "U") && (Ascii.eqb n "n" || Ascii.eqb n "N") &&
      (Ascii.eqb c "c" || Ascii.eqb c "C") && is_sep_w e
  | _ => false
  end.

(** The third part of [ntpath.splitroot(p)] (Python 3.12): the path after
    its drive ([X:], or a UNC [\\server\share] or [\\?\UNC\server\share])
    and its root separator. *)
Definition nt_rest (l : list ascii) : list ascii :=
  match l with
  | [] => []
  | a :: r =>
      if is_sep_w a then
        match r with
        | b :: _ =>
            if is_sep_w b then
              let start := if unc_prefix l then 8%nat else 2%nat in
              match find_index is_sep_w (List.skipn start l) with
              | None => []
              | Some j =>
                  match find_index is_sep_w (List.skipn (start + j + 1) l) with
                  | None => []
                  | Some j2 => List.skipn (start + j + 1 + j2 + 1) l
                  end
              end
            else r
        | [] => r
        end
      else
        match r with
        | c :: r' =>
            if Ascii.eqb c ":" then
              match r' with
              | d :: r'' => if is_sep_w d then r'' else r'
              | [] => r'
              end
            else l
        | [] => l
        end
  end.

(** [os.path.basename]: [posixpath.basename] takes what follows the last
    [/]; [ntpath.basename] takes what follows the last [\] or [/] once the
    drive and root are split off. *)
Definition basename (env : Env) (p : string) : string :=
  let l := list_ascii_of_string p in
  string_of_list_ascii
    (if env_windows env then last_component is_sep_w (nt_rest l)
     else last_component (fun c => Ascii.eqb c "/") l).

Definition opt_str (o : option string) : string :=
  match o with Some s => s | None => "" end.

(* ================================================================== *)
(** ** [ckeygen.py] *)

(** The parsed command line ([GeneralOptions]). *)
Record Options := mkOpts {
  o_bits : PyVal;                  (* "bits", default None *)
  o_filename : option string;      (* "filename" *)
  o_newpass : option string;       (* "newpass" *)
  o_pass : option string;          (* "pass" *)
  o_format : string;               (* "format", default "sha256-base64" *)
  o_subtype : option string;       (* "private-key-subtype" *)
  o_nopass : bool }.               (* "no-passphrase" *)

Definition set_bits (v : PyVal) (o : Options) : Options :=
  mkOpts v (o_filename o) (o_newpass o) (o_pass o) (o_format o)
         (o_subtype o) (o_nopass o).

(** [enumrepresentation(options)]. *)
Definition enumrepresentation (fmt : string) : M FingerprintFormat :=
  if String.eqb fmt "md5-hex" then ret MD5_HEX
  else if String.eqb fmt "sha256-base64" then ret SHA256_BASE64
  else raise (BadFingerPrintFormat ("Unsupported fingerprint format: " ++ fmt)).

(** [_defaultPrivateKeySubtype(keyType)]. *)
Definition _defaultPrivateKeySubtype (keyType : string) : string :=
  if String.eqb keyType "Ed25519" then "v1" else "PEM".

(** [options["private-key-subtype"]] after the [is None] defaulting done
    by [_saveKey] and [changePassPhrase]. *)
Definition resolve_subtype (o : option string) (key : Key) : string :=
  match o with
  | None => _defaultPrivateKeySubtype (key_type key)
  | Some s => s
  end.

(** [_getKeyOrDefault(options, inputCollector, keyTypeName)]. *)
Definition _getKeyOrDefault (env : Env) (opts : Options) (keyTypeName : string)
  : M string :=
  if truthy_s (o_filename opts) then ret (opt_str (o_filename opts))
  else
    let filename := expanduser env ("~/.ssh/id_" ++ keyTypeName) in
    let filename := if env_windows env
                    then expanduser env ("%HOMEPATH %\.ssh\id_" ++ keyTypeName)
                    else filename in
    do ans <- input ("Enter file in which the key is (" ++ filename ++ "): ");
    ret (if String.eqb ans "" then filename else ans).

(** The [while 1] loop collecting a passphrase twice, over the remaining
    terminal lines; returns the outcome, the unread lines and the events
    (newest first). *)
Fixpoint confirm_loop (pr1 pr2 : string) (inp : list string)
  : Res string * list string * list Event :=
  match inp with
  | [] => (Raise EOFError, [], [EPrompt pr1])
  | [p1] => (Raise EOFError, [], [EPrompt pr2; EPrompt pr1])
  | p1 :: p2 :: rest =>
      if String.eqb p1 p2 then (Ret p1, rest, [EPrompt pr2; EPrompt pr1])
      else
        let '(r, rest', evs) := confirm_loop pr1 pr2 rest in
        (r, rest', (evs ++ [EPrint "Passphrases do not match.  Try again.";
                            EPrompt pr2; EPrompt pr1])%list)
  end.

Definition passphrase_loop (pr1 pr2 : string) : M string := fun s =>
  let '(r, rest, evs) := confirm_loop pr1 pr2 (st_inp s) in
  (r, mkSt (st_fs s) rest (evs ++ st_log s)%list).

(** [KeyTypeMapping[key.type()]]. *)
Definition KeyTypeMapping (t : string) : M string :=
  if String.eqb t "EC" then ret "ecdsa"
  else if String.eqb t "Ed25519" then ret "ed25519"
  else if String.eqb t "RSA" then ret "rsa"
  else if String.eqb t "DSA" then ret "dsa"
  else raise KeyError.

Definition _inputSaveFile (prompt : string) : M string := input prompt.

(** [_saveKey], lines 352-361: where to save the key. *)
Definition saveKey_resolve (env : Env) (key : Key) (opts : Options) : M string :=
  do keyTypeName <- KeyTypeMapping (key_type key);
  if truthy_s (o_filename opts) then ret (opt_str (o_filename opts))
  else
    do defaultPath <- _getKeyOrDefault env opts keyTypeName;
    do newPath <- _inputSaveFile
                ("Enter file in which to save the key (" ++ defaultPath ++ "): ");
    ret (if String.eqb (strip newPath) "" then defaultPath else strip newPath).

(** [yn[0].lower() != "y"]; [IndexError] on an empty answer. *)
Definition first_is_y (yn : string) : M bool :=
  match yn with
  | EmptyString => raise IndexError
  | String c _ => ret (Ascii.eqb c "y" || Ascii.eqb c "Y")
  end.

(** [_saveKey], lines 363-367: confirmation before overwriting. *)
Definition confirm_overwrite (filename : string) : M unit :=
  do ex <- path_exists filename;
  if ex then
    (do_ print (filename ++ " already exists.");
     do yn <- input "Overwrite (y/n)? ";
     do y <- first_is_y yn;
     if y then ret tt else sys_exit None)
  else ret tt.

(** 0o100600 *)
Definition private_mode : Z := 33152.

(** [_saveKey], lines 369-378: the passphrase of the new key. *)
Definition saveKey_pass (opts : Options) : M string :=
  if o_nopass opts then ret ""
  else if truthy_s (o_pass opts) then ret (opt_str (o_pass opts))
  else passphrase_loop "Enter passphrase (empty for no passphrase): "
                       "Enter same passphrase again: ".

(** [_saveKey], lines 369-397: passphrase, serialisation and the writes. *)
Definition saveKey_persist (env : Env) (prov : Provider) (key : Key)
    (opts : Options) (filename : string) : M unit :=
  do pass <- saveKey_pass opts;
  let subtype := resolve_subtype (o_subtype opts) key in
  let comment := env_user env ++ "@" ++ env_host env in
  do data <- lift (p_private_bytes prov key subtype pass);
  do_ setContent env filename data;
  do_ chmod filename private_mode;
  do pub <- lift (p_public_bytes prov key (Some comment));
  setContent env (filename ++ ".pub") pub.

(** [_saveKey], lines 398-403: the fingerprint format and the report. *)
Definition saveKey_report (prov : Provider) (key : Key) (opts : Options)
    (filename : string) : M unit :=
  do fmt <- enumrepresentation (o_format opts);
  do_ print ("Your identification has been saved in " ++ filename);
  do_ print ("Your public key has been saved in " ++ filename ++ ".pub");
  do_ print ("The key fingerprint in " ++ format_repr fmt ++ " is:");
  print (p_fingerprint prov key fmt).

(** [_saveKey(key, options)]. *)
Definition _saveKey (env : Env) (prov : Provider) (key : Key) (opts : Options)
  : M unit :=
  do filename <- saveKey_resolve env key opts;
  do_ confirm_overwrite filename;
  do_ saveKey_persist env prov key opts filename;
  saveKey_report prov key opts filename.

(** Modelled from the spec: [keys._curveTable] (twisted.conch.ssh.keys,
    outside the ckeygen script); the spec selects the ECDSA curve by bits
    among 256, 384 and 521. *)
Definition _curveTable (name : string) : option Curve :=
  if String.eqb name "ecdsa-sha2-nistp256" then Some SECP256R1
  else if String.eqb name "ecdsa-sha2-nistp384" then Some SECP384R1
  else if String.eqb name "ecdsa-sha2-nistp521" then Some SECP521R1
  else None.

(** [if not options["bits"]: options["bits"] = default]. *)
Definition default_bits (d : Z) (opts : Options) : Options :=
  if truthy (o_bits opts) then opts else set_bits (PyInt d) opts.

(** The backend call of [generateRSAkey]. *)
Definition rsa_request (opts : Options) : M GenRequest :=
  do n <- py_int (o_bits opts); ret (GenRSA n 65537).

(** The backend call of [generateDSAkey]. *)
Definition dsa_request (opts : Options) : M GenRequest :=
  do n <- py_int (o_bits opts); ret (GenDSA n).

(** The backend call of [generateECDSAkey]:
    [curve = b"ecdsa-sha2-nistp" + str(options["bits"]).encode("ascii")]. *)
Definition ecdsa_request (opts : Options) : M GenRequest :=
  let bits := py_str (o_bits opts) in
  if negb (is_ascii bits) then raise UnicodeEncodeError
  else
    match _curveTable ("ecdsa-sha2-nistp" ++ bits) with
    | Some c => ret (GenEC c)
    | None => raise KeyError
    end.

Definition generate_with (env : Env) (prov : Provider) (req : M GenRequest)
    (opts : Options) : M unit :=
  do r <- req;
  do key <- lift (p_generate prov r);
  _saveKey env prov key opts.

Definition generateRSAkey (env : Env) (prov : Provider) (opts : Options) : M unit :=
  let opts := default_bits 2048 opts in
  generate_with env prov (rsa_request opts) opts.

Definition generateDSAkey (env : Env) (prov : Provider) (opts : Options) : M unit :=
  let opts := default_bits 1024 opts in
  generate_with env prov (dsa_request opts) opts.

Definition generateECDSAkey (env : Env) (prov : Provider) (opts : Options) : M unit :=
  let opts := default_bits 256 opts in
  generate_with env prov (ecdsa_request opts) opts.

Definition generateEd25519key (env : Env) (prov : Provider) (opts : Options)
  : M unit :=
  generate_with env prov (ret GenEd25519) opts.

(** [supportedKeyTypes], filled by the [_keyGenerator] decorators. *)
Definition supportedKeyTypes (name : string)
  : option (Env -> Provider -> Options -> M unit) :=
  if String.eqb name "rsa" then Some generateRSAkey
  else if String.eqb name "dsa" then Some generateDSAkey
  else if String.eqb name "ecdsa" then Some generateECDSAkey
  else if String.eqb name "ed25519" then Some generateEd25519key
  else None.

(** [printFingerprint], lines 239-255, once the file name is known. *)
Definition fingerprint_at (env : Env) (prov : Provider) (opts : Options)
    (filename : string) : M unit :=
  do ex <- path_exists (filename ++ ".pub");
  let filename := if ex then filename ++ ".pub" else filename in
  do fmt <- enumrepresentation (o_format opts);
  try_ (do key <- fromFile prov filename None;
        print (str_of_Z (key_size key) ++ " " ++ p_fingerprint prov key fmt
               ++ " " ++ basename env filename))
       (fun e => match e with
                 | BadKeyError _ => Some (sys_exit (Some "bad key"))
                 | FileNotFoundError =>
                     Some (sys_exit (Some (filename
                             ++ " could not be opened, please specify a file.")))
                 | _ => None
                 end).

(** [printFingerprint(options)]. *)
Definition printFingerprint (env : Env) (prov : Provider) (opts : Options)
  : M unit :=
  do filename <- _getKeyOrDefault env opts "rsa";
  fingerprint_at env prov opts filename.

(** [changePassPhrase], lines 259-275: find and load the key. *)
Definition cpp_load (env : Env) (prov : Provider) (opts : Options)
  : M (string * Key) :=
  do filename <- _getKeyOrDefault env opts "rsa";
  do key <- try_ (fromFile prov filename None)
    (fun e => match e with
      | EncryptedKeyError _ => Some (
          do pass <- (if truthy_s (o_pass opts) then ret (opt_str (o_pass opts))
                      else getpass "Enter old passphrase: ");
          try_ (fromFile prov filename (Some pass))
            (fun e' => match e' with
              | BadKeyError _ =>
                  Some (sys_exit (Some "Could not change passphrase: old passphrase error"))
              | EncryptedKeyError m =>
                  Some (sys_exit (Some ("Could not change passphrase: " ++ m)))
              | _ => None
              end))
      | BadKeyError m => Some (sys_exit (Some ("Could not change passphrase: " ++ m)))
      | FileNotFoundError =>
          Some (sys_exit (Some (filename
                  ++ " could not be opened, please specify a file.")))
      | _ => None
      end);
  ret (filename, key).

(** [changePassPhrase], lines 298-306: round-trip check, then the write. *)
Definition cpp_commit (env : Env) (prov : Provider) (filename newpass : string)
    (newkeydata : string) : M unit :=
  do_ try_ (fromString prov newkeydata (Some newpass))
        (fun e => match e with
          | EncryptedKeyError m | BadKeyError m =>
              Some (sys_exit (Some ("Could not change passphrase: " ++ m)))
          | _ => None
          end);
  do_ open_write env filename newkeydata;
  print "Your identification has been saved with the new passphrase.".

(** [changePassPhrase], lines 277-284: the new passphrase. *)
Definition cpp_newpass (opts : Options) : M string :=
  if truthy_s (o_newpass opts) then ret (opt_str (o_newpass opts))
  else passphrase_loop "Enter new passphrase (empty for no passphrase): "
                       "Enter same passphrase again: ".

(** [changePassPhrase(options)]. *)
Definition changePassPhrase (env : Env) (prov : Provider) (opts : Options)
  : M unit :=
  do fk <- cpp_load env prov opts;
  let '(filename, key) := fk in
  do newpass <- cpp_newpass opts;
  let subtype := resolve_subtype (o_subtype opts) key in
  do newkeydata <- try_ (lift (p_private_bytes prov key subtype newpass))
                     (fun e => Some (sys_exit
                                (Some ("Could not change passphrase: " ++ exc_str e))));
  cpp_commit env prov filename newpass newkeydata.

(** [displayPublicKey(options)]. *)
Definition displayPublicKey (env : Env) (prov : Provider) (opts : Options)
  : M unit :=
  do filename <- _getKeyOrDefault env opts "rsa";
  do key <- try_ (fromFile prov filename None)
    (fun e => match e with
      | FileNotFoundError =>
          Some (sys_exit (Some (filename
                  ++ " could not be opened, please specify a file.")))
      | EncryptedKeyError _ => Some (
          do pass <- (if truthy_s (o_pass opts) then ret (opt_str (o_pass opts))
                      else getpass "Enter passphrase: ");
          fromFile prov filename (Some pass))
      | _ => None
      end);
  do displayKey <- lift (p_public_bytes prov key None);
  print displayKey.

(** [str.lower()] on the code points a [string] can hold (0-255): the
    ASCII capitals and the Latin-1 capitals (U+00C0-U+00D6, U+00D8-U+00DE)
    map to their small letters. *)
Definition lower_char (c : ascii) : ascii :=
  let n := nat_of_ascii c in
  if ((65 <=? n) && (n <=? 90))%nat || ((192 <=? n) && (n <=? 214))%nat
     || ((216 <=? n) && (n <=? 222))%nat
  then ascii_of_nat (n + 32) else c.

Fixpoint lower (s : string) : string :=
  match s with
  | EmptyString => EmptyString
  | String c r => String (lower_char c) (lower r)
  end.

(** [supportedKeyTypes.keys()], in the order the [_keyGenerator]
    decorators register them. *)
Definition supportedKeyTypeNames : list string := ["rsa"; "dsa"; "ecdsa"; "ed25519"].

(** [sep.join(items)]. *)
Fixpoint join (sep : string) (items : list string) : string :=
  match items with
  | [] => ""
  | [x] => x
  | x :: r => x ++ sep ++ join sep r
  end.

(** The options [run] dispatches on, besides those the commands read. *)
Record RunOptions := mkRunOpts {
  r_type : option string;   (* "type" *)
  r_fingerprint : bool;     (* "fingerprint" *)
  r_changepass : bool;      (* "changepass" *)
  r_showpub : bool;         (* "showpub" *)
  r_opts : Options }.

(** [run()] once [options.parseOptions(sys.argv[1:])] has succeeded.
    [help_exit] is [options.opt_help(); sys.exit(1)]: the usage text comes
    from [twisted.python.usage] and the exit status 1 is not a message, so
    it is left as a parameter.  [log.discardLogs()] and the [log.deferr]
    hook do not touch the state modelled here. *)
Definition run (help_exit : M unit) (env : Env) (prov : Provider)
    (r : RunOptions) : M unit :=
  if truthy_s (r_type r) then
    let t := opt_str (r_type r) in
    match supportedKeyTypes (lower t) with
    | Some gen =>
        do_ print ("Generating public/private " ++ t ++ " key pair.");
        gen env prov (r_opts r)
    | None =>
        sys_exit (Some ("Key type was " ++ t ++ ", must be one of "
                        ++ join ", " supportedKeyTypeNames))
    end
  else if r_fingerprint r then printFingerprint env prov (r_opts r)
  else if r_changepass r then changePassPhrase env prov (r_opts r)
  else if r_showpub r then displayPublicKey env prov (r_opts r)
  else help_exit.

(* ================================================================== *)
(** ** A concrete environment and provider, for examples *)

Definition demo_key : Key := mkKey Ed25519 256 7.
Definition demo_rsa_key : Key := mkKey RSA 2048 11.

(** A POSIX environment where every file operation succeeds; the
    temporary sibling of [p] is [p ++ ".new"]. *)
Definition demo_env (umask : Z) : Env :=
  mkEnv false "/home/user/" "user" "host" umask (fun _ => WOk) (fun _ => false)
        (fun _ => false) (fun p => p ++ ".new").

(** The same on Windows. *)
Definition demo_env_windows : Env :=
  mkEnv true "C:\Users\user" "user" "host" 0 (fun _ => WOk) (fun _ => false)
        (fun _ => false) (fun p => p ++ ".new").

Definition prefixb (pre s : string) : bool := String.prefix pre s.

(** Keys serialise to ["PRIV(subtype,passphrase)"]; a provider built with
    [roundtrip = false] cannot read back what it writes. *)
Definition demo_provider (roundtrip : bool) : Provider :=
  mkProvider
    (fun r => match r with
              | GenRSA n _ => Ret (mkKey RSA n 11)
              | GenDSA n => Ret (mkKey DSA n 13)
              | GenEC _ => Ret (mkKey EC 256 17)
              | GenEd25519 => Ret demo_key
              end)
    (fun k sub pw => Ret ("PRIV(" ++ sub ++ "," ++ pw ++ ")"))
    (fun k c => Ret ("PUB " ++ opt_str c))
    (fun data pass =>
       if String.eqb data "enc-key" then
         match pass with
         | None => LEncrypted "Passphrase must be provided for an encrypted key"
         | Some p => if String.eqb p "old" then Loaded demo_key
                     else LBad "incorrect passphrase"
         end
       else if String.eqb data "plain-key" then Loaded demo_key
       else if String.eqb data "rsa-key" then Loaded demo_rsa_key
       else if prefixb "PUB" data then Loaded demo_key
       else if prefixb "PRIV(" data && roundtrip then Loaded demo_key
       else LBad "Cannot guess the type of the key")
    (fun k f => match f with MD5_HEX => "aa:bb" | SHA256_BASE64 => "SHA256:xyz" end).

Definition demo_opts : Options :=
  mkOpts PyNone None None None "sha256-base64" None false.

Definition with_file (o : Options) (fn : string) : Options :=
  mkOpts (o_bits o) (Some fn) (o_newpass o) (o_pass o) (o_format o)
         (o_subtype o) (o_nopass o).

Definition with_format (o : Options) (f : string) : Options :=
  mkOpts (o_bits o) (o_filename o) (o_newpass o) (o_pass o) f
         (o_subtype o) (o_nopass o).

Definition fs1 (p : string) (content : string) : gmap string FileEntry :=
  <[p := mkFile content 384]> ∅.

Example ex_str_of_Z : str_of_Z 2048 = "2048" /\ str_of_Z 0 = "0" /\ str_of_Z (-15) = "-15".
Proof. vm_compute. auto. Qed.

Example ex_parse_int : parse_int " 2_048 " = Some 2048%Z /\ parse_int "-7" = Some (-7)%Z
                       /\ parse_int "2__0" = None /\ parse_int "" = None.
Proof. vm_compute. auto. Qed.

Example ex_expanduser : expanduser (demo_env 18) "~/.ssh/id_rsa" = "/home/user/.ssh/id_rsa".
Proof. reflexivity. Qed.

Example ex_basename : basename (demo_env 18) "/a/b/id.pub" = "id.pub" /\
                      basename (demo_env 18) "C:k.pub" = "C:k.pub" /\
                      basename demo_env_windows "C:k.pub" = "k.pub" /\
                      basename demo_env_windows "C:\a/b\k.pub" = "k.pub" /\
                      basename demo_env_windows "\\server\share" = "" /\
                      basename demo_env_windows "\\server\share\k" = "k" /\
                      basename demo_env_windows "//?/unc/srv/shr" = "".
Proof. vm_compute. repeat split. Qed.

Example ex_strip_latin1 : strip (String "160"%char "k") = "k" /\
                          strip (String "028"%char EmptyString) = "".
Proof. vm_compute. split; reflexivity. Qed.

Example ex_strip : strip "  x y  " = "x y".
Proof. reflexivity. Qed.

(* ================================================================== *)
(** ** Steps that only talk to the terminal and read files *)

Definition io_ev (e : Event) : Prop :=
  match e with
  | EPrompt _ | EPrint _ | ERead _ => True
  | EWrite _ _ | EChmod _ _ | EUnlink _ | ERename _ _ => False
  end.

(** A step that leaves the filesystem alone and logs only prompts, prints
    and reads. *)
Definition readonly {A} (m : M A) : Prop :=
  forall s, st_fs (snd (m s)) = st_fs s /\
            exists l, st_log (snd (m s)) = (l ++ st_log s)%list /\ Forall io_ev l.


Lemma ro_ret {A} (a : A) : readonly (ret a).
Proof. intros s. split; [reflexivity |]. exists []. auto. Qed.

Lemma ro_raise {A} e : readonly (A:=A) (raise e).
Proof. intros s. split; [reflexivity |]. exists []. auto. Qed.

Lemma ro_exit {A} m : readonly (A:=A) (sys_exit m).
Proof. intros s. split; [reflexivity |]. exists []. auto. Qed.

Lemma ro_lift {A} (r : Res A) : readonly (lift r).
Proof. intros s. split; [reflexivity |]. exists []. auto. Qed.

Lemma ro_print m : readonly (print m).
Proof. intros s. split; [reflexivity |]. exists [EPrint m]. simpl. repeat constructor. Qed.

Lemma ro_read_line p : readonly (read_line p).
Proof.
  intros [fs inp lg]. unfold read_line; simpl.
  destruct inp; simpl; (split; [reflexivity |]; exists [EPrompt p]; simpl; repeat constructor).
Qed.

Lemma ro_read_file p : readonly (read_file p).
Proof.
  intros [fs inp lg]. unfold read_file; simpl.
  destruct (fs !! p); simpl; (split; [reflexivity |]; exists [ERead p]; simpl; repeat constructor).
Qed.

Lemma ro_path_exists p : readonly (path_exists p).
Proof. intros s. split; [reflexivity |]. exists []. auto. Qed.

Lemma ro_bind {A B} (m : M A) (k : A -> M B) :
  readonly m -> (forall a, readonly (k a)) -> readonly (bind m k).
Proof.
  intros Hm Hk s. unfold bind. specialize (Hm s).
  destruct (m s) as [[a | msg | e] s1]; simpl in *; auto.
  destruct Hm as [Hf [l [Hl Hio]]].
  destruct (Hk a s1) as [Hf' [l' [Hl' Hio']]].
  split; [congruence |].
  exists (l' ++ l)%list. rewrite Hl', Hl, app_assoc. split; auto.
  apply Forall_app; auto.
Qed.

Lemma ro_try {A} (m : M A) (h : Exc -> option (M A)) :
  readonly m -> (forall e k, h e = Some k -> readonly k) -> readonly (try_ m h).
Proof.
  intros Hm Hh s. unfold try_. specialize (Hm s).
  destruct (m s) as [[a | msg | e] s1]; simpl in *; auto.
  destruct (h e) as [k |] eqn:He; simpl; auto.
  destruct Hm as [Hf [l [Hl Hio]]].
  destruct (Hh e k He s1) as [Hf' [l' [Hl' Hio']]].
  split; [congruence |].
  exists (l' ++ l)%list. rewrite Hl', Hl, app_assoc. split; auto.
  apply Forall_app; auto.
Qed.

(** Induction over a list two elements at a time, as the passphrase loop
    consumes it. *)
Lemma list_pair_ind {T} (P : list T -> Prop) :
  P [] -> (forall x, P [x]) -> (forall x y r, P r -> P (x :: y :: r)) ->
  forall l, P l.
Proof.
  intros H0 H1 H2.
  assert (H : forall n l, length l <= n -> P l).
  { induction n as [| n IH]; intros l Hl.
    - destruct l; [exact H0 | simpl in Hl; lia].
    - destruct l as [| x [| y r]]; auto.
      apply H2, IH. simpl in Hl. lia. }
  intros l. apply (H (length l)). lia.
Qed.

Lemma confirm_loop_io pr1 pr2 inp :
  Forall io_ev (snd (confirm_loop pr1 pr2 inp)).
Proof.
  induction inp as [| x | x y r IH] using list_pair_ind; simpl;
    try (repeat constructor; fail).
  destruct (String.eqb x y); [repeat constructor |].
  destruct (confirm_loop pr1 pr2 r) as [[r' rest'] evs]; simpl in *.
  apply Forall_app; split; [exact IH | repeat constructor].
Qed.

Lemma ro_passphrase_loop pr1 pr2 : readonly (passphrase_loop pr1 pr2).
Proof.
  intros [fs inp lg]. unfold passphrase_loop; simpl.
  pose proof (confirm_loop_io pr1 pr2 inp) as Hio.
  destruct (confirm_loop pr1 pr2 inp) as [[r rest] evs]; simpl in *.
  split; [reflexivity |]. exists evs. auto.
Qed.

Ltac ro :=
  repeat (cbv beta;
    match goal with
    | |- readonly (bind _ _) => apply ro_bind; [ | intros ? ]
    | |- readonly (try_ _ _) =>
        apply ro_try;
        [ | let e := fresh "e" in let k := fresh "k" in let H := fresh "Hh" in
            intros e k H; destruct e; try discriminate H; injection H as <- ]
    | |- readonly (ret _) => apply ro_ret
    | |- readonly (raise _) => apply ro_raise
    | |- readonly (sys_exit _) => apply ro_exit
    | |- readonly (lift _) => apply ro_lift
    | |- readonly (print _) => apply ro_print
    | |- readonly (read_line _) => apply ro_read_line
    | |- readonly (input _) => apply ro_read_line
    | |- readonly (getpass _) => apply ro_read_line
    | |- readonly (_inputSaveFile _) => apply ro_read_line
    | |- readonly (read_file _) => apply ro_read_file
    | |- readonly (path_exists _) => apply ro_path_exists
    | |- readonly (passphrase_loop _ _) => apply ro_passphrase_loop
    | |- readonly _ => case_match
    end).

Lemma ro_fromString prov data pass : readonly (fromString prov data pass).
Proof. unfold fromString. ro. Qed.

Lemma ro_fromFile prov p pass : readonly (fromFile prov p pass).
Proof. unfold fromFile. ro. apply ro_fromString. Qed.

Lemma ro_getKeyOrDefault env opts t : readonly (_getKeyOrDefault env opts t).
Proof. unfold _getKeyOrDefault. ro. Qed.

Lemma ro_enumrepresentation f : readonly (enumrepresentation f).
Proof. unfold enumrepresentation. ro. Qed.

Lemma ro_KeyTypeMapping t : readonly (KeyTypeMapping t).
Proof. unfold KeyTypeMapping. ro. Qed.

Lemma ro_first_is_y yn : readonly (first_is_y yn).
Proof. unfold first_is_y. ro. Qed.

Lemma ro_confirm_overwrite fn : readonly (confirm_overwrite fn).
Proof. unfold confirm_overwrite. ro. apply ro_first_is_y. Qed.

Lemma ro_saveKey_resolve env key opts : readonly (saveKey_resolve env key opts).
Proof.
  unfold saveKey_resolve. ro; auto using ro_KeyTypeMapping, ro_getKeyOrDefault.
Qed.

Lemma ro_cpp_load env prov opts : readonly (cpp_load env prov opts).
Proof. unfold cpp_load. ro; auto using ro_getKeyOrDefault, ro_fromFile. Qed.

Lemma ro_fingerprint_at env prov opts fn : readonly (fingerprint_at env prov opts fn).
Proof. unfold fingerprint_at. ro; auto using ro_fromFile, ro_enumrepresentation. Qed.

Lemma ro_displayPublicKey env prov opts : readonly (displayPublicKey env prov opts).
Proof. unfold displayPublicKey. ro; auto using ro_getKeyOrDefault, ro_fromFile. Qed.

(** Running a read-only step: the file system after it is unchanged. *)
Lemma ro_fs {A} (m : M A) s r s' : readonly m -> m s = (r, s') -> st_fs s' = st_fs s.
Proof. intros H E. destruct (H s) as [Hf _]. rewrite E in Hf. exact Hf. Qed.

Lemma cpp_commit_verify_fails env prov fn np data s :
  (forall k, p_fromString prov data (Some np) <> Loaded k) ->
  exists msg, cpp_commit env prov fn np data s = (Exit (Some msg), s).
Proof.
  intros Hv. unfold cpp_commit, bind, try_, fromString.
  destruct (p_fromString prov data (Some np)) as [k | m | m] eqn:E.
  - exfalso. exact (Hv k eq_refl).
  - eexists. reflexivity.
  - eexists. reflexivity.
Qed.

Lemma ro_cpp_newpass opts : readonly (cpp_newpass opts).
Proof. unfold cpp_newpass. ro. Qed.

(** ** C1 *)

(** C1: in [changePassPhrase] the new key bytes are re-parsed with the new
    passphrase before anything is written. When that round trip fails, the
    commit step ends in [sys.exit] with the state untouched.  And every run
    either leaves the file system unchanged and does not succeed, or has
    changed exactly one file, only after bytes that passed the round-trip
    check: the file holds those bytes when the run succeeds, or the part of
    them written before the write failed ([open(..., "wb")] truncates
    first). *)
Theorem changePassPhrase_verify_before_write (env : Env) (prov : Provider)
    (opts : Options) (s : St) :
  (forall fn np data s0,
      (forall k, p_fromString prov data (Some np) <> Loaded k) ->
      exists msg, cpp_commit env prov fn np data s0 = (Exit (Some msg), s0)) /\
  (let '(r, s') := changePassPhrase env prov opts s in
   (st_fs s' = st_fs s /\ r <> Ret tt) \/
   (exists fn np data mode k,
       p_fromString prov data (Some np) = Loaded k /\
       ((r = Ret tt /\ st_fs s' = <[fn := mkFile data mode]> (st_fs s)) \/
        (exists n, r = Raise OSError /\
           st_fs s' = <[fn := mkFile (substring 0 n data) mode]> (st_fs s))))).
Proof.
  split; [intros; apply cpp_commit_verify_fails; assumption |].
  unfold changePassPhrase, bind at 1.
  destruct (cpp_load env prov opts s) as [[[fn key] | m | e] s1] eqn:E1;
    pose proof (ro_fs _ _ _ _ (ro_cpp_load env prov opts) E1) as F1;
    [| left; split; [exact F1 | discriminate] ..].
  cbv beta iota. unfold bind at 1.
  destruct (cpp_newpass opts s1) as [[np | m | e] s2] eqn:E2;
    pose proof (ro_fs _ _ _ _ (ro_cpp_newpass opts) E2) as F2;
    [| left; split; [congruence | discriminate] ..].
  unfold bind at 1, try_ at 1, lift.
  destruct (p_private_bytes prov key (resolve_subtype (o_subtype opts) key) np)
    as [data | m | e];
    [| left; split; [congruence | discriminate] ..].
  unfold cpp_commit, bind, try_, fromString.
  destruct (p_fromString prov data (Some np)) as [k | m | m] eqn:Ev;
    [| left; split; [simpl; congruence | discriminate] ..].
  unfold ret, open_write, write_file, print, log_ev; simpl.
  destruct (env_fault env fn) as [| | n]; simpl.
  - right. do 5 eexists. split; [exact Ev |]. left. split; [reflexivity |].
    rewrite F2, F1. reflexivity.
  - left. split; [congruence | discriminate].
  - right. do 5 eexists. split; [exact Ev |]. right. exists n. split; [reflexivity |].
    rewrite F2, F1. reflexivity.
Qed.

(** The key file of the passphrase-change examples: an encrypted key. *)
Definition demo_cpp_state (inp : list string) : St := mkSt (fs1 "/k" "enc-key") inp [].

Lemma demo_roundtrip_fails :
  forall k, p_fromString (demo_provider false) "PRIV(v1,n)" (Some "n") <> Loaded k.
Proof. intros k. vm_compute. discriminate. Qed.

Lemma changePassPhrase_verify_before_write_witness :
  (forall k, p_fromString (demo_provider false) "PRIV(v1,n)" (Some "n") <> Loaded k) /\
  exists msg, cpp_commit (demo_env 18) (demo_provider false) "/k" "n" "PRIV(v1,n)"
                (demo_cpp_state []) = (Exit (Some msg), demo_cpp_state []).
Proof.
  pose proof demo_roundtrip_fails as Hv.
  split; [exact Hv |].
  apply (proj1 (changePassPhrase_verify_before_write (demo_env 18) (demo_provider false)
                  (with_file demo_opts "/k") (demo_cpp_state ["old"; "n"; "n"]))).
  exact Hv.
Defined.

(* ================================================================== *)
(** ** The writes of [_saveKey] *)

Ltac sc_lookups :=
  repeat first
    [ rewrite lookup_insert_eq | rewrite lookup_delete_eq
    | rewrite lookup_insert_ne by congruence | rewrite lookup_delete_ne by congruence ].

Ltac sc_step :=
  cbn [st_fs st_inp st_log] in *;
  first
  [ progress sc_lookups
  | match goal with
    | |- context [if env_windows ?e then _ else _] => destruct (env_windows e)
    | |- context [if bool_decide ?P then _ else _] => case_bool_decide
    | |- context [if env_unlink_fails ?e ?q then _ else _] => destruct (env_unlink_fails e q)
    | |- context [if env_rename_fails ?e ?q then _ else _] => destruct (env_rename_fails e q)
    | |- context [match env_fault ?e ?q with _ => _ end] => destruct (env_fault e q)
    | |- context [match ?fs !! ?q with _ => _ end] => destruct (fs !! q) eqn:?
    end ].

Ltac sc_cases env p :=
  unfold setContent, bind, path_exists, raise, ret, write_file, os_unlink, os_rename;
  destruct (decide (p = env_temp env p)) as [Heq|Hne];
  [ rewrite <- Heq | ]; repeat sc_step; cbn [st_fs st_inp st_log] in *;
  let Hrun := fresh "Hrun" in
  intros Hrun; try discriminate Hrun; injection Hrun; intros; subst.


Lemma setContent_ok env p d s s' :
  setContent env p d s = (Ret tt, s') ->
  st_fs s' = <[p := mkFile d (creation_mode env)]> (st_fs s) /\
  st_inp s' = st_inp s /\
  exists u, st_log s' = (set_events env p u ++ st_log s)%list.
Proof.
  destruct s as [fs inp lg]. sc_cases env p; cbn [st_fs st_inp st_log];
    (split; [| split; [reflexivity | unfold set_events; rewrite <- ?Heq;
      first [exists false; reflexivity | exists true; reflexivity]]]);
    apply map_eq; intros q;
    (destruct (decide (q = p)); [subst q; sc_lookups; reflexivity |]);
    (destruct (decide (q = env_temp env p)); [subst q | ]); sc_lookups;
    try reflexivity; symmetry; apply eq_None_not_Some; assumption.
Qed.



Lemma ro_saveKey_pass opts : readonly (saveKey_pass opts).
Proof. unfold saveKey_pass. ro. Qed.

Lemma ro_saveKey_report prov key opts fn : readonly (saveKey_report prov key opts fn).
Proof. unfold saveKey_report. ro. apply ro_enumrepresentation. Qed.

(** A successful [saveKey_persist]: the private file is written, then
    restricted, then the public file is written. *)
Lemma saveKey_persist_ok env prov key opts fn s s' :
  saveKey_persist env prov key opts fn s = (Ret tt, s') ->
  exists pw data pub s1,
    saveKey_pass opts s = (Ret pw, s1) /\
    p_private_bytes prov key (resolve_subtype (o_subtype opts) key) pw = Ret data /\
    p_public_bytes prov key (Some (env_user env ++ "@" ++ env_host env)) = Ret pub /\
    st_fs s' = <[fn ++ ".pub" := mkFile pub (creation_mode env)]>
                 (<[fn := mkFile data private_mode]> (st_fs s1)) /\
    st_inp s' = st_inp s1 /\
    exists u1 u2,
      st_log s' = (set_events env (fn ++ ".pub") u2 ++ EChmod fn private_mode
                   :: set_events env fn u1 ++ st_log s1)%list.
Proof.
  unfold saveKey_persist, bind at 1.
  destruct (saveKey_pass opts s) as [[pw | m | e] s1] eqn:E; try discriminate.
  unfold bind at 1, lift.
  destruct (p_private_bytes prov key _ pw) as [data | m | e] eqn:Ed; try discriminate.
  unfold bind at 1.
  destruct (setContent env fn data s1) as [[[] | m | e] s2] eqn:W1; try discriminate.
  destruct (setContent_ok _ _ _ _ _ W1) as (F2 & I2 & u1 & L2).
  unfold bind at 1, chmod. rewrite F2, lookup_insert_eq. cbn [f_content].
  unfold bind at 1.
  destruct (p_public_bytes prov key _) as [pub | m | e] eqn:Ep; try discriminate.
  intros W3.
  destruct (setContent_ok _ _ _ _ _ W3) as (F3 & I3 & u2 & L3).
  cbn [st_fs st_inp st_log] in F3, I3, L3.
  exists pw, data, pub, s1. repeat split; auto.
  - rewrite F3. f_equal. apply insert_insert_eq.
  - congruence.
  - exists u1, u2. rewrite L3, L2. reflexivity.
Qed.

(** A successful [_saveKey] run, step by step. *)
Lemma saveKey_ok env prov key opts s s' :
  _saveKey env prov key opts s = (Ret tt, s') ->
  exists fn s1 s2 s3 pw data pub,
    saveKey_resolve env key opts s = (Ret fn, s1) /\
    confirm_overwrite fn s1 = (Ret tt, s2) /\
    saveKey_pass opts s2 = (Ret pw, s3) /\
    p_private_bytes prov key (resolve_subtype (o_subtype opts) key) pw = Ret data /\
    p_public_bytes prov key (Some (env_user env ++ "@" ++ env_host env)) = Ret pub /\
    st_fs s3 = st_fs s /\
    st_fs s' = <[fn ++ ".pub" := mkFile pub (creation_mode env)]>
                 (<[fn := mkFile data private_mode]> (st_fs s)) /\
    (exists l1 l0 u1 u2,
        st_log s' = (l1 ++ set_events env (fn ++ ".pub") u2
                     ++ EChmod fn private_mode :: set_events env fn u1
                     ++ l0 ++ st_log s)%list /\
        Forall io_ev l1 /\ Forall io_ev l0).
Proof.
  unfold _saveKey, bind at 1.
  destruct (saveKey_resolve env key opts s) as [[fn | m | e] s1] eqn:E1;
    try discriminate.
  unfold bind at 1.
  destruct (confirm_overwrite fn s1) as [[[] | m | e] s2] eqn:E2; try discriminate.
  unfold bind at 1.
  destruct (saveKey_persist env prov key opts fn s2) as [[[] | m | e] s4] eqn:E4;
    try discriminate.
  intros E5.
  destruct (saveKey_persist_ok _ _ _ _ _ _ _ E4)
    as (pw & data & pub & s3 & E3 & Ed & Ep & F4 & _ & u1 & u2 & L4).
  destruct (ro_saveKey_resolve env key opts s) as [F1 [l1 [L1 I1]]].
  rewrite E1 in F1, L1. simpl in F1, L1.
  destruct (ro_confirm_overwrite fn s1) as [F2 [l2 [L2 I2]]].
  rewrite E2 in F2, L2. simpl in F2, L2.
  destruct (ro_saveKey_pass opts s2) as [F3 [l3 [L3 I3]]].
  rewrite E3 in F3, L3. simpl in F3, L3.
  destruct (ro_saveKey_report prov key opts fn s4) as [F5 [l5 [L5 I5]]].
  rewrite E5 in F5, L5. simpl in F5, L5.
  exists fn, s1, s2, s3, pw, data, pub.
  repeat split; auto; try congruence.
  exists l5, (l3 ++ l2 ++ l1)%list, u1, u2. split.
  - rewrite L5, L4, L3, L2, L1. rewrite <- !app_assoc. reflexivity.
  - split; auto. apply Forall_app; split; auto. apply Forall_app; auto.
Qed.

Lemma pub_path_differs (fn : string) : fn <> fn ++ ".pub".
Proof.
  induction fn as [| c r IH]; simpl; [discriminate |].
  intros H. injection H as H. exact (IH H).
Qed.

(** Whether a mode grants nothing to group and others ([mode & 0o077 == 0]). *)
Definition owner_only (m : Z) : bool := Z.eqb (Z.land m 63) 0.

(** The generate run used below: an Ed25519 key saved to [/k] with no
    passphrase entered (two empty answers), under umask 022. *)
Definition demo_save_state : St := mkSt ∅ [""; ""] [].

Definition demo_save_run : Res unit * St :=
  _saveKey (demo_env 18) (demo_provider true) demo_key
           (with_file demo_opts "/k") demo_save_state.

(** ** C2 *)

(** C2, counterexample: a successful generate under umask 022 writes the
    private key into the temporary sibling [/k.new] created with mode 0o755
    (493), readable by group and others, renames it onto [/k], and only then
    restricts [/k] to 0o600. *)
Lemma saveKey_private_file_created_world_readable :
  fst demo_save_run = Ret tt /\
  (exists l1 l0, st_log (snd demo_save_run) =
     (l1 ++ EChmod "/k" private_mode :: ERename "/k.new" "/k" :: EWrite "/k.new" 493 :: l0)%list) /\
  owner_only 493 = false.
Proof.
  split; [vm_compute; reflexivity |].
  split; [| reflexivity].
  exists [EPrint "SHA256:xyz";
          EPrint "The key fingerprint in <FingerprintFormats=SHA256_BASE64> is:";
          EPrint "Your public key has been saved in /k.pub";
          EPrint "Your identification has been saved in /k";
          ERename "/k.pub.new" "/k.pub"; EWrite "/k.pub.new" 493],
         [EPrompt "Enter same passphrase again: ";
          EPrompt "Enter passphrase (empty for no passphrase): "].
  vm_compute. reflexivity.
Qed.

(** C2, amended: in every successful generate the private key is written
    into the temporary sibling of its path, created with the default
    creation mode [0o777 & ~umask], which is renamed onto the path (after
    unlinking the path on Windows); only then is the path restricted to
    0o600 (0o100600), before the public key is saved the same way with the
    creation mode. Nothing else writes, renames, unlinks or chmods. At the
    end the private file is owner-only and the public one keeps the
    creation mode. *)
Theorem saveKey_write_then_restrict env prov key opts s s' :
  _saveKey env prov key opts s = (Ret tt, s') ->
  exists fn data pub l1 l0 u1 u2,
    st_log s' = (l1 ++ set_events env (fn ++ ".pub") u2
                 ++ EChmod fn private_mode :: set_events env fn u1
                 ++ l0 ++ st_log s)%list /\
    Forall io_ev l1 /\ Forall io_ev l0 /\
    st_fs s' !! fn = Some (mkFile data private_mode) /\
    st_fs s' !! (fn ++ ".pub") = Some (mkFile pub (creation_mode env)) /\
    owner_only private_mode = true.
Proof.
  intros H.
  destruct (saveKey_ok _ _ _ _ _ _ H)
    as (fn & s1 & s2 & s3 & pw & data & pub & _ & _ & _ & _ & _ & _ & F
        & l1 & l0 & u1 & u2 & L & I1 & I0).
  exists fn, data, pub, l1, l0, u1, u2.
  repeat split; auto; rewrite F.
  - rewrite lookup_insert_ne by (intros Heq; exact (pub_path_differs fn (eq_sym Heq))). apply lookup_insert_eq.
  - apply lookup_insert_eq.
Qed.

Lemma saveKey_write_then_restrict_witness :
  _saveKey (demo_env 18) (demo_provider true) demo_key (with_file demo_opts "/k")
    demo_save_state = (Ret tt, snd demo_save_run) /\
  exists fn data pub l1 l0 u1 u2,
    st_log (snd demo_save_run) =
      (l1 ++ set_events (demo_env 18) (fn ++ ".pub") u2
       ++ EChmod fn private_mode :: set_events (demo_env 18) fn u1
       ++ l0 ++ st_log demo_save_state)%list /\
    Forall io_ev l1 /\ Forall io_ev l0 /\
    st_fs (snd demo_save_run) !! fn = Some (mkFile data private_mode) /\
    st_fs (snd demo_save_run) !! (fn ++ ".pub")
      = Some (mkFile pub (creation_mode (demo_env 18))) /\
    owner_only private_mode = true.
Proof.
  split; [vm_compute; reflexivity |].
  apply (saveKey_write_then_restrict (demo_env 18) (demo_provider true) demo_key
           (with_file demo_opts "/k") demo_save_state).
  vm_compute. reflexivity.
Defined.

(* ================================================================== *)
(** ** Loading keys *)

Lemma fromFile_ok prov p pw s k s' :
  fromFile prov p pw s = (Ret k, s') ->
  exists f, st_fs s !! p = Some f /\ p_fromString prov (f_content f) pw = Loaded k /\
            st_fs s' = st_fs s.
Proof.
  unfold fromFile, bind, read_file; simpl.
  destruct (st_fs s !! p) as [f |] eqn:Ef; [| discriminate].
  unfold fromString, ret, raise.
  destruct (p_fromString prov (f_content f) pw) eqn:Ep; intros H; inversion H; subst.
  exists f. auto.
Qed.

(** The key [changePassPhrase] goes on with was parsed from the file it
    will overwrite. *)
Lemma cpp_load_ok env prov opts s fn k s1 :
  cpp_load env prov opts s = (Ret (fn, k), s1) ->
  exists f pw, st_fs s !! fn = Some f /\ p_fromString prov (f_content f) pw = Loaded k /\
               st_fs s1 = st_fs s.
Proof.
  unfold cpp_load, bind at 1.
  destruct (_getKeyOrDefault env opts "rsa" s) as [[fn0 | m | e] s0] eqn:E0;
    try discriminate.
  pose proof (ro_fs _ _ _ _ (ro_getKeyOrDefault env opts "rsa") E0) as F0.
  unfold bind at 1, try_ at 1.
  destruct (fromFile prov fn0 None s0) as [[k0 | m | e] s2] eqn:E1.
  - intros H. inversion H; subst.
    destruct (fromFile_ok _ _ _ _ _ _ E1) as (f & Hf & Hp & F1).
    exists f, None. rewrite <- F0. auto with congruence.
  - discriminate.
  - pose proof (ro_fs _ _ _ _ (ro_fromFile prov fn0 None) E1) as F1.
    destruct e; try discriminate; simpl.
    unfold bind at 1.
    set (pstep := if truthy_s (o_pass opts) then _ else _).
    assert (Hro : readonly pstep) by (unfold pstep; ro).
    destruct (pstep s2) as [[pw | m | e] s3] eqn:E3; try discriminate.
    pose proof (ro_fs _ _ _ _ Hro E3) as F3.
    unfold try_.
    destruct (fromFile prov fn0 (Some pw) s3) as [[k1 | m | e] s4] eqn:E4.
    + intros H. inversion H; subst.
      destruct (fromFile_ok _ _ _ _ _ _ E4) as (f & Hf & Hp & F4).
      exists f, (Some pw). rewrite F3, F1, F0 in Hf. rewrite F4, F3, F1, F0. auto.
    + discriminate.
    + destruct e; discriminate.
Qed.

(** A successful [changePassPhrase] run, step by step. *)
Lemma changePassPhrase_ok env prov opts s s' :
  changePassPhrase env prov opts s = (Ret tt, s') ->
  exists fn key s1 np s2 data k' mode,
    cpp_load env prov opts s = (Ret (fn, key), s1) /\
    cpp_newpass opts s1 = (Ret np, s2) /\
    p_private_bytes prov key (resolve_subtype (o_subtype opts) key) np = Ret data /\
    p_fromString prov data (Some np) = Loaded k' /\
    st_fs s' = <[fn := mkFile data mode]> (st_fs s).
Proof.
  unfold changePassPhrase, bind at 1.
  destruct (cpp_load env prov opts s) as [[[fn key] | m | e] s1] eqn:E1;
    try discriminate.
  pose proof (ro_fs _ _ _ _ (ro_cpp_load env prov opts) E1) as F1.
  cbv beta iota. unfold bind at 1.
  destruct (cpp_newpass opts s1) as [[np | m | e] s2] eqn:E2; try discriminate.
  pose proof (ro_fs _ _ _ _ (ro_cpp_newpass opts) E2) as F2.
  unfold bind at 1, try_ at 1, lift.
  destruct (p_private_bytes prov key (resolve_subtype (o_subtype opts) key) np)
    as [data | m | e] eqn:Ed; try (unfold sys_exit; discriminate).
  unfold cpp_commit, bind, try_, fromString.
  destruct (p_fromString prov data (Some np)) as [k | m | m] eqn:Ev;
    try (unfold raise, sys_exit; simpl; discriminate).
  unfold ret, open_write, write_file, print, log_ev; simpl.
  destruct (env_fault env fn); simpl; try discriminate.
  intros H. inversion H; subst; clear H.
  do 8 eexists. repeat split; eauto.
  simpl. rewrite F2, F1. reflexivity.
Qed.

(** ** C4 *)

(** The subtype rule in the spec's words: the caller's subtype when one is
    given, else "v1" for Ed25519 keys and "PEM" for the other types. *)
Definition spec_subtype (o : option string) (k : Key) : string :=
  match o with
  | Some s => s
  | None => match key_kind k with Ed25519 => "v1" | _ => "PEM" end
  end.

(** C4: generate and changePassphrase serialise the private key with the
    caller's subtype when one is given and otherwise with "v1" for Ed25519
    and "PEM" for every other key type: [resolve_subtype] is that rule, and
    the private file a successful run leaves behind holds the provider's
    serialisation with that subtype (for changePassphrase, of the key read
    from the same file). *)
Theorem private_key_subtype_resolution env prov opts key s :
  (forall o k, resolve_subtype o k = spec_subtype o k) /\
  (forall s', _saveKey env prov key opts s = (Ret tt, s') ->
     exists fn pw data,
       st_fs s' !! fn = Some (mkFile data private_mode) /\
       p_private_bytes prov key (spec_subtype (o_subtype opts) key) pw = Ret data) /\
  (forall s', changePassPhrase env prov opts s = (Ret tt, s') ->
     exists fn k f pw0 np data mode,
       st_fs s !! fn = Some f /\ p_fromString prov (f_content f) pw0 = Loaded k /\
       st_fs s' !! fn = Some (mkFile data mode) /\
       p_private_bytes prov k (spec_subtype (o_subtype opts) k) np = Ret data).
Proof.
  assert (Hr : forall o k, resolve_subtype o k = spec_subtype o k).
  { intros [o |] [[] sz d]; reflexivity. }
  split; [exact Hr | split].
  - intros s' H.
    destruct (saveKey_ok _ _ _ _ _ _ H)
      as (fn & s1 & s2 & s3 & pw & data & pub & _ & _ & _ & Ed & _ & _ & F & _).
    exists fn, pw, data. rewrite <- Hr. split; [| exact Ed].
    rewrite F, lookup_insert_ne by (intros Heq; exact (pub_path_differs fn (eq_sym Heq))).
    apply lookup_insert_eq.
  - intros s' H.
    destruct (changePassPhrase_ok _ _ _ _ _ H)
      as (fn & k & s1 & np & s2 & data & k' & mode & E1 & _ & Ed & _ & F).
    destruct (cpp_load_ok _ _ _ _ _ _ _ E1) as (f & pw0 & Hf & Hp & _).
    exists fn, k, f, pw0, np, data, mode. rewrite <- Hr.
    repeat split; auto. rewrite F. apply lookup_insert_eq.
Qed.

Lemma private_key_subtype_resolution_witness :
  resolve_subtype None demo_key = "v1" /\
  (exists fn pw data,
     st_fs (snd demo_save_run) !! fn = Some (mkFile data private_mode) /\
     p_private_bytes (demo_provider true) demo_key
       (spec_subtype (o_subtype (with_file demo_opts "/k")) demo_key) pw = Ret data).
Proof.
  destruct (private_key_subtype_resolution (demo_env 18) (demo_provider true)
              (with_file demo_opts "/k") demo_key demo_save_state) as [H1 [H2 _]].
  split; [rewrite H1; reflexivity |].
  apply H2. vm_compute. reflexivity.
Defined.

(* ================================================================== *)
(** ** C8 *)

(** The curve the spec associates with an ECDSA bit size. *)
Definition spec_curve (b : Z) : option Curve :=
  if Z.eqb b 256 then Some SECP256R1
  else if Z.eqb b 384 then Some SECP384R1
  else if Z.eqb b 521 then Some SECP521R1
  else None.

(** C8: with the bit size unspecified (no [-b], or a falsy value), RSA
    keys are generated with 2048 bits, DSA keys with 1024 bits and ECDSA
    keys on the curve of 256 bits; the ECDSA curve follows the specified
    bit size (256, 384 or 521, given on the command line or as an int). *)
Theorem generate_bits_defaults env prov opts s :
  (truthy (o_bits opts) = false ->
     generateRSAkey env prov opts s =
       bind (lift (p_generate prov (GenRSA 2048 65537)))
            (fun k => _saveKey env prov k (default_bits 2048 opts)) s /\
     generateDSAkey env prov opts s =
       bind (lift (p_generate prov (GenDSA 1024)))
            (fun k => _saveKey env prov k (default_bits 1024 opts)) s /\
     generateECDSAkey env prov opts s =
       bind (lift (p_generate prov (GenEC SECP256R1)))
            (fun k => _saveKey env prov k (default_bits 256 opts)) s) /\
  (forall b c, spec_curve b = Some c ->
     (o_bits opts = PyInt b \/ o_bits opts = PyStr (str_of_Z b)) ->
     generateECDSAkey env prov opts s =
       bind (lift (p_generate prov (GenEC c)))
            (fun k => _saveKey env prov k (default_bits 256 opts)) s).
Proof.
  split.
  - intros Hb.
    unfold generateRSAkey, generateDSAkey, generateECDSAkey, generate_with.
    unfold default_bits. rewrite Hb.
    repeat split; reflexivity.
  - intros b c Hc Hb.
    unfold generateECDSAkey, generate_with.
    unfold spec_curve in Hc.
    destruct (Z.eqb_spec b 256) as [-> |];
      [| destruct (Z.eqb_spec b 384) as [-> |];
         [| destruct (Z.eqb_spec b 521) as [-> |]; [| discriminate]]];
      injection Hc as <-;
      (destruct Hb as [Hb | Hb];
       assert (Ht : truthy (o_bits opts) = true) by (rewrite Hb; reflexivity);
       unfold default_bits; rewrite Ht; unfold ecdsa_request; rewrite Hb;
       reflexivity).
Qed.

Lemma generate_bits_defaults_witness :
  truthy (o_bits demo_opts) = false /\
  generateRSAkey (demo_env 18) (demo_provider true) demo_opts demo_save_state =
    bind (lift (p_generate (demo_provider true) (GenRSA 2048 65537)))
         (fun k => _saveKey (demo_env 18) (demo_provider true) k
                     (default_bits 2048 demo_opts)) demo_save_state.
Proof.
  split; [reflexivity |].
  apply (proj1 (generate_bits_defaults (demo_env 18) (demo_provider true) demo_opts
                  demo_save_state)).
  reflexivity.
Defined.

(* ================================================================== *)
(** ** Default key paths *)

Lemma bind_assoc {A B C} (m : M A) (f : A -> M B) (g : B -> M C) s :
  bind (bind m f) g s = bind m (fun x => bind (f x) g) s.
Proof. unfold bind. destruct (m s) as [[a | msg | e] s1]; reflexivity. Qed.

(** The default key file [~/.ssh/id_<type>] as the spec names it, with
    [~] the home directory (the literal [%HOMEPATH %\.ssh\id_<type>] the
    script uses on Windows). *)
Definition default_key_path (env : Env) (t : string) : string :=
  if env_windows env then "%HOMEPATH %\.ssh\id_" ++ t
  else rstrip_char "/" (env_home env) ++ "/.ssh/id_" ++ t.

(** The type names of [KeyTypeMapping], by key type. *)
Definition key_type_name (k : Key) : string :=
  match key_kind k with
  | RSA => "rsa" | DSA => "dsa" | EC => "ecdsa" | Ed25519 => "ed25519"
  end.

Definition path_prompt (d : string) : string :=
  "Enter file in which the key is (" ++ d ++ "): ".

Lemma default_key_path_nonempty env t : truthy_s (Some (default_key_path env t)) = true.
Proof.
  unfold default_key_path. destruct (env_windows env); [reflexivity |].
  simpl. destruct (rstrip_char "/" (env_home env)); reflexivity.
Qed.

Lemma getKeyOrDefault_empty_answer env opts t s rest :
  truthy_s (o_filename opts) = false -> st_inp s = "" :: rest ->
  _getKeyOrDefault env opts t s =
    (Ret (default_key_path env t),
     mkSt (st_fs s) rest (EPrompt (path_prompt (default_key_path env t)) :: st_log s)).
Proof.
  intros Hf Hi. unfold _getKeyOrDefault. rewrite Hf.
  destruct s as [fs inp lg]; simpl in Hi; subst inp.
  unfold default_key_path, path_prompt.
  destruct (env_windows env); reflexivity.
Qed.

Lemma getKeyOrDefault_given env opts t s :
  truthy_s (o_filename opts) = true ->
  _getKeyOrDefault env opts t s = (Ret (opt_str (o_filename opts)), s).
Proof. intros Hf. unfold _getKeyOrDefault. rewrite Hf. reflexivity. Qed.

Lemma bind_step {A B} (m : M A) (k : A -> M B) s a s1 :
  m s = (Ret a, s1) -> bind m k s = k a s1.
Proof. intros H. unfold bind. rewrite H. reflexivity. Qed.

(** ** C10 *)

(** C10: with no file name given and the offered default accepted (an
    empty answer), fingerprint, changePassphrase and exportPublic prompt
    with [~/.ssh/id_rsa] and then run exactly as if that path had been
    given, whatever the files hold; generate instead offers and uses
    [~/.ssh/id_<type>] for the type of the generated key. *)
Theorem default_path_ignores_key_type env prov opts s rest :
  truthy_s (o_filename opts) = false -> st_inp s = "" :: rest ->
  let D := default_key_path env "rsa" in
  let s1 := mkSt (st_fs s) rest (EPrompt (path_prompt D) :: st_log s) in
  printFingerprint env prov opts s = printFingerprint env prov (with_file opts D) s1 /\
  changePassPhrase env prov opts s = changePassPhrase env prov (with_file opts D) s1 /\
  displayPublicKey env prov opts s = displayPublicKey env prov (with_file opts D) s1 /\
  (forall key rest', rest = "" :: rest' ->
     let Dk := default_key_path env (key_type_name key) in
     saveKey_resolve env key opts s =
       (Ret Dk, mkSt (st_fs s) rest'
                  (EPrompt ("Enter file in which to save the key (" ++ Dk ++ "): ")
                   :: EPrompt (path_prompt Dk) :: st_log s))).
Proof.
  intros Hf Hi D s1.
  pose proof (getKeyOrDefault_empty_answer env opts "rsa" s rest Hf Hi) as E.
  assert (E' : _getKeyOrDefault env (with_file opts D) "rsa" s1 = (Ret D, s1)).
  { apply getKeyOrDefault_given. apply default_key_path_nonempty. }
  split; [| split; [| split]].
  - unfold printFingerprint.
    rewrite (bind_step _ _ _ _ _ E), (bind_step _ _ _ _ _ E'). reflexivity.
  - unfold changePassPhrase, cpp_load.
    rewrite !bind_assoc.
    rewrite (bind_step _ _ _ _ _ E), (bind_step _ _ _ _ _ E'). reflexivity.
  - unfold displayPublicKey.
    rewrite (bind_step _ _ _ _ _ E), (bind_step _ _ _ _ _ E'). reflexivity.
  - intros key rest' Hr Dk.
    assert (Ek : KeyTypeMapping (key_type key) s = (Ret (key_type_name key), s))
      by (destruct key as [[] sz d]; reflexivity).
    unfold saveKey_resolve.
    rewrite (bind_step _ _ _ _ _ Ek), Hf.
    rewrite (bind_step _ _ _ _ _
               (getKeyOrDefault_empty_answer env opts (key_type_name key) s rest Hf Hi)).
    subst rest. reflexivity.
Qed.

Lemma default_path_ignores_key_type_witness :
  truthy_s (o_filename demo_opts) = false /\
  st_inp (mkSt (fs1 "/home/user/.ssh/id_rsa" "plain-key") [""; ""] []) = "" :: [""] /\
  printFingerprint (demo_env 18) (demo_provider true) demo_opts
    (mkSt (fs1 "/home/user/.ssh/id_rsa" "plain-key") [""; ""] []) =
  printFingerprint (demo_env 18) (demo_provider true)
    (with_file demo_opts (default_key_path (demo_env 18) "rsa"))
    (mkSt (fs1 "/home/user/.ssh/id_rsa" "plain-key") [""]
       [EPrompt (path_prompt (default_key_path (demo_env 18) "rsa"))]).
Proof.
  split; [reflexivity | split; [reflexivity |]].
  exact (proj1 (default_path_ignores_key_type (demo_env 18) (demo_provider true) demo_opts
                  (mkSt (fs1 "/home/user/.ssh/id_rsa" "plain-key") [""; ""] []) [""]
                  eq_refl eq_refl)).
Defined.

(* ================================================================== *)
(** ** C7 *)

Lemma ro_printFingerprint env prov opts : readonly (printFingerprint env prov opts).
Proof.
  unfold printFingerprint. apply ro_bind; [apply ro_getKeyOrDefault |].
  intros fn. apply ro_fingerprint_at.
Qed.

Ltac in_reads H :=
  repeat (destruct H as [H | H];
          [first [discriminate H | injection H as <-; right; reflexivity] |]);
  left; exact H.

(** C7: fingerprinting never changes a file; when the [.pub] sibling of the
    resolved path exists, it is the only file read; and when the format is
    supported and the chosen file parses, the fingerprint of that key in
    the requested format is printed (with the key size and the file's base
    name). *)
Theorem printFingerprint_prefers_pub env prov opts s :
  st_fs (snd (printFingerprint env prov opts s)) = st_fs s /\
  (forall fn s0 p,
     is_Some (st_fs s0 !! (fn ++ ".pub")) ->
     In (ERead p) (st_log (snd (fingerprint_at env prov opts fn s0))) ->
     In (ERead p) (st_log s0) \/ p = fn ++ ".pub") /\
  (forall fn s0 fmt f k,
     let p := if bool_decide (is_Some (st_fs s0 !! (fn ++ ".pub")))
              then fn ++ ".pub" else fn in
     fst (enumrepresentation (o_format opts) s0) = Ret fmt ->
     st_fs s0 !! p = Some f -> p_fromString prov (f_content f) None = Loaded k ->
     fingerprint_at env prov opts fn s0 =
       (Ret tt, mkSt (st_fs s0) (st_inp s0)
                  (EPrint (str_of_Z (key_size k) ++ " " ++ p_fingerprint prov k fmt
                           ++ " " ++ basename env p) :: ERead p :: st_log s0))).
Proof.
  split; [| split].
  - exact (proj1 (ro_printFingerprint env prov opts s)).
  - intros fn s0 p Hpub Hin.
    unfold fingerprint_at, bind at 1, path_exists in Hin.
    rewrite bool_decide_eq_true_2 in Hin by exact Hpub.
    destruct Hpub as [f Ef].
    unfold enumrepresentation in Hin.
    destruct (String.eqb (o_format opts) "md5-hex");
      [| destruct (String.eqb (o_format opts) "sha256-base64")];
      unfold fromFile, read_file, fromString, print, log_ev, bind, ret, raise, try_
        in Hin;
      [ | | simpl in Hin; left; exact Hin];
      cbn [st_fs st_inp st_log snd fst] in Hin; rewrite Ef in Hin; simpl in Hin;
      destruct (p_fromString prov (f_content f) None); simpl in Hin;
      in_reads Hin.
  - intros fn s0 fmt f k p Hfmt Hf Hk.
    unfold fingerprint_at, bind at 1, path_exists. fold p.
    unfold enumrepresentation in *.
    destruct (String.eqb (o_format opts) "md5-hex");
      [| destruct (String.eqb (o_format opts) "sha256-base64"); [| discriminate]];
      simpl in Hfmt; injection Hfmt as <-;
      unfold fromFile, read_file, fromString, print, log_ev, bind, ret, try_;
      cbn [st_fs st_inp st_log snd fst]; rewrite Hf; cbn beta iota; rewrite Hk;
      reflexivity.
Qed.

(** An encrypted private key [/k] next to its public key [/k.pub]. *)
Definition demo_fp_state : St :=
  mkSt (<["/k.pub" := mkFile "PUB x" 420]> (fs1 "/k" "enc-key")) [] [].

Lemma printFingerprint_prefers_pub_witness :
  fst (enumrepresentation (o_format demo_opts) demo_fp_state) = Ret SHA256_BASE64 /\
  fingerprint_at (demo_env 18) (demo_provider true) demo_opts "/k" demo_fp_state =
    (Ret tt, mkSt (st_fs demo_fp_state) []
               [EPrint ("256 SHA256:xyz k.pub"); ERead "/k.pub"]).
Proof.
  split; [reflexivity |].
  exact (proj2 (proj2 (printFingerprint_prefers_pub (demo_env 18) (demo_provider true)
                         demo_opts demo_fp_state))
           "/k" demo_fp_state SHA256_BASE64 (mkFile "PUB x" 420) demo_key
           eq_refl eq_refl eq_refl).
Defined.

(* ================================================================== *)
(** ** C5 *)

Definition old_prompt : string := "Enter old passphrase: ".

(** How many times a prompt was shown in a stretch of the log. *)
Definition count_prompt (p : string) (l : list Event) : nat :=
  length (List.filter (fun e => match e with EPrompt q => String.eqb q p | _ => false end) l).

Lemma fromFile_eval prov p pw s f :
  st_fs s !! p = Some f ->
  fromFile prov p pw s =
    (match p_fromString prov (f_content f) pw with
     | Loaded k => Ret k
     | LEncrypted m => Raise (EncryptedKeyError m)
     | LBad m => Raise (BadKeyError m)
     end, mkSt (st_fs s) (st_inp s) (ERead p :: st_log s)).
Proof.
  intros Hf. unfold fromFile, read_file, fromString, bind.
  cbn [st_fs st_inp st_log]. rewrite Hf. cbn beta iota.
  destruct (p_fromString prov (f_content f) pw); reflexivity.
Qed.

Lemma confirm_loop_events pr1 pr2 inp :
  Forall (fun e => e = EPrompt pr1 \/ e = EPrompt pr2 \/
                   e = EPrint "Passphrases do not match.  Try again.")
         (snd (confirm_loop pr1 pr2 inp)).
Proof.
  induction inp as [| x | x y r IH] using list_pair_ind; simpl;
    try (repeat (apply List.Forall_cons; [cbv beta; auto |]); apply List.Forall_nil).
  destruct (String.eqb x y); [repeat (apply List.Forall_cons; [cbv beta; auto |]); apply List.Forall_nil |].
  destruct (confirm_loop pr1 pr2 r) as [[r' rest'] evs]; simpl in *.
  apply Forall_app; split; [exact IH |].
  repeat (apply List.Forall_cons; [cbv beta; auto |]); apply List.Forall_nil.
Qed.

Lemma cpp_newpass_no_old_prompt opts s :
  exists l, st_log (snd (cpp_newpass opts s)) = (l ++ st_log s)%list /\
            Forall (fun e => e <> EPrompt old_prompt) l.
Proof.
  unfold cpp_newpass. destruct (truthy_s (o_newpass opts)).
  - exists []. auto.
  - unfold passphrase_loop.
    pose proof (confirm_loop_events "Enter new passphrase (empty for no passphrase): "
                  "Enter same passphrase again: " (st_inp s)) as H.
    destruct (confirm_loop _ _ (st_inp s)) as [[r rest] evs]; simpl in *.
    exists evs. split; [reflexivity |].
    eapply Forall_impl; [exact H |].
    intros e [-> | [-> | ->]]; discriminate.
Qed.

(** After the key is loaded, [changePassPhrase] never asks for the old
    passphrase again. *)
Lemma changePassPhrase_after_load env prov opts s fn k s1 :
  cpp_load env prov opts s = (Ret (fn, k), s1) ->
  exists l, st_log (snd (changePassPhrase env prov opts s)) = (l ++ st_log s1)%list /\
            Forall (fun e => e <> EPrompt old_prompt) l.
Proof.
  intros E1. unfold changePassPhrase. rewrite (bind_step _ _ _ _ _ E1).
  cbv beta iota. unfold bind at 1.
  destruct (cpp_newpass_no_old_prompt opts s1) as [l2 [L2 N2]].
  destruct (cpp_newpass opts s1) as [[np | m | e] s2] eqn:E2; simpl in L2;
    [| exists l2; auto ..].
  unfold bind at 1, try_ at 1, lift.
  destruct (p_private_bytes prov k (resolve_subtype (o_subtype opts) k) np);
    [| exists l2; auto ..].
  unfold cpp_commit, bind, try_, fromString.
  destruct (p_fromString prov a (Some np));
    [| exists l2; auto ..].
  unfold ret, open_write, write_file, print, log_ev; simpl.
  destruct (env_fault env fn); simpl; [| exists l2; auto |].
  - eexists. split.
    + rewrite L2. instantiate (1 := (_ :: _ :: l2)%list). reflexivity.
    + repeat constructor; auto; discriminate.
  - eexists. split.
    + rewrite L2. instantiate (1 := (_ :: l2)%list). reflexivity.
    + repeat constructor; auto; discriminate.
Qed.

Lemma count_prompt_app p l1 l2 :
  count_prompt p (l1 ++ l2) = count_prompt p l1 + count_prompt p l2.
Proof.
  unfold count_prompt. induction l1 as [| e l1 IH]; [reflexivity |].
  simpl. destruct (match e with EPrompt q => String.eqb q p | _ => false end);
    simpl; rewrite ?IH; reflexivity.
Qed.

Lemma count_prompt_none p l :
  Forall (fun e => e <> EPrompt p) l -> count_prompt p l = 0.
Proof.
  unfold count_prompt. induction 1 as [| e l He _ IH]; [reflexivity |].
  simpl. destruct e; simpl; try exact IH.
  destruct (String.eqb_spec s p) as [-> | _]; [congruence | exact IH].
Qed.

(** [_getKeyOrDefault] shows at most the path prompt, never the
    old-passphrase prompt. *)
Lemma getKeyOrDefault_no_old_prompt env opts t s :
  exists l, st_log (snd (_getKeyOrDefault env opts t s)) = (l ++ st_log s)%list /\
            count_prompt old_prompt l = 0.
Proof.
  unfold _getKeyOrDefault. destruct (truthy_s (o_filename opts)).
  - exists []. auto.
  - cbv zeta. unfold bind, input, read_line, ret.
    destruct s as [fs [| a inp] lg]; cbn [st_inp st_fs st_log snd];
      eexists; (split; [instantiate (1 := [_]); reflexivity |]);
      unfold count_prompt; cbn [List.filter length];
      destruct (env_windows env); reflexivity.
Qed.

(** [cpp_load] on a key file that needs a passphrase: one more read of the
    file with the supplied or prompted passphrase, whose outcome is final. *)
Lemma cpp_load_encrypted env prov opts s fn s1 f m pw inp' pl :
  _getKeyOrDefault env opts "rsa" s = (Ret fn, s1) ->
  st_fs s1 !! fn = Some f ->
  p_fromString prov (f_content f) None = LEncrypted m ->
  (if truthy_s (o_pass opts)
   then pw = opt_str (o_pass opts) /\ inp' = st_inp s1 /\ pl = []
   else st_inp s1 = pw :: inp' /\ pl = [EPrompt old_prompt]) ->
  cpp_load env prov opts s =
    (match p_fromString prov (f_content f) (Some pw) with
     | Loaded k => Ret (fn, k)
     | LBad _ => Exit (Some "Could not change passphrase: old passphrase error")
     | LEncrypted m' => Exit (Some ("Could not change passphrase: " ++ m'))
     end,
     mkSt (st_fs s1) inp' (ERead fn :: pl ++ ERead fn :: st_log s1)%list).
Proof.
  intros Hg Hf Henc Hpw.
  unfold cpp_load.
  rewrite (bind_step _ _ _ _ _ Hg).
  unfold bind at 1, try_ at 1.
  rewrite (fromFile_eval prov _ None s1 f Hf), Henc. cbv beta iota.
  destruct (truthy_s (o_pass opts)).
  - destruct Hpw as [-> [-> ->]].
    unfold bind at 1, ret at 1. cbv beta iota.
    unfold try_. rewrite (fromFile_eval prov _ _ (mkSt (st_fs s1) _ _) f Hf). simpl.
    destruct (p_fromString prov (f_content f) (Some (opt_str (o_pass opts))));
      reflexivity.
  - destruct Hpw as [Hinp ->].
    unfold bind at 1, getpass, read_line. cbn [st_inp st_fs st_log].
    rewrite Hinp. cbv beta iota.
    unfold try_. rewrite (fromFile_eval prov _ _ (mkSt (st_fs s1) _ _) f Hf). simpl.
    destruct (p_fromString prov (f_content f) (Some pw)); reflexivity.
Qed.

(** C5: on a key file that needs a passphrase, with none given on the
    command line, [changePassPhrase] shows the old-passphrase prompt
    exactly once in the whole run, whether the key path was given with
    [--filename] or asked for; and when the supplied or prompted
    passphrase does not open the key, it exits at once with a
    "Could not change passphrase: ..." error, having read the key file
    twice and changed nothing, without asking again. *)
Theorem changePassPhrase_old_passphrase_once env prov opts s fn s1 f m :
  _getKeyOrDefault env opts "rsa" s = (Ret fn, s1) ->
  st_fs s1 !! fn = Some f ->
  p_fromString prov (f_content f) None = LEncrypted m ->
  st_fs s1 = st_fs s /\
  (truthy_s (o_pass opts) = false ->
     exists l, st_log (snd (changePassPhrase env prov opts s)) = (l ++ st_log s)%list /\
               count_prompt old_prompt l = 1) /\
  (forall pw inp' pl,
     (if truthy_s (o_pass opts)
      then pw = opt_str (o_pass opts) /\ inp' = st_inp s1 /\ pl = []
      else st_inp s1 = pw :: inp' /\ pl = [EPrompt old_prompt]) ->
     (forall k, p_fromString prov (f_content f) (Some pw) <> Loaded k) ->
     exists msg, changePassPhrase env prov opts s =
       (Exit (Some ("Could not change passphrase: " ++ msg)),
        mkSt (st_fs s1) inp' (ERead fn :: pl ++ ERead fn :: st_log s1)%list)).
Proof.
  intros Hg Hf Henc.
  destruct (getKeyOrDefault_no_old_prompt env opts "rsa" s) as [l0 [L0 N0]].
  rewrite Hg in L0. cbn [snd] in L0.
  split; [exact (ro_fs _ _ _ _ (ro_getKeyOrDefault env opts "rsa") Hg) | split].
  - intros Hp. destruct (st_inp s1) as [| pw inp'] eqn:Hinp.
    + (* the prompt meets the end of input *)
      exists ([EPrompt old_prompt; ERead fn] ++ l0)%list.
      split.
      2:{ rewrite count_prompt_app, N0. reflexivity. }
      assert (E : cpp_load env prov opts s =
                (Raise EOFError, mkSt (st_fs s1) []
                   (EPrompt old_prompt :: ERead fn :: st_log s1))).
      { unfold cpp_load.
        rewrite (bind_step _ _ _ _ _ Hg).
        unfold bind at 1, try_ at 1.
        rewrite (fromFile_eval prov _ None s1 f Hf), Henc. cbv beta iota.
        rewrite Hp. unfold bind at 1, getpass, read_line. cbn [st_inp st_fs st_log].
        rewrite Hinp. reflexivity. }
      unfold changePassPhrase. unfold bind at 1. rewrite E. cbn [snd st_log].
      rewrite L0. reflexivity.
    + pose proof (cpp_load_encrypted env prov opts s fn s1 f m pw inp' [EPrompt old_prompt]
                    Hg Hf Henc) as E. rewrite Hp in E.
      specialize (E (conj Hinp eq_refl)).
      destruct (p_fromString prov (f_content f) (Some pw)) as [k | m' | m'] eqn:Hk.
      * destruct (changePassPhrase_after_load env prov opts s _ k _ E) as [l [L N]].
        exists (l ++ [ERead fn; EPrompt old_prompt; ERead fn] ++ l0)%list.
        split.
        { rewrite L. cbn [st_log]. rewrite L0. rewrite <- !app_assoc. reflexivity. }
        rewrite !count_prompt_app, (count_prompt_none _ _ N), N0. reflexivity.
      * exists ([ERead fn; EPrompt old_prompt; ERead fn] ++ l0)%list. split.
        { unfold changePassPhrase. unfold bind at 1. rewrite E. cbn [snd st_log].
          rewrite L0. reflexivity. }
        rewrite count_prompt_app, N0. reflexivity.
      * exists ([ERead fn; EPrompt old_prompt; ERead fn] ++ l0)%list. split.
        { unfold changePassPhrase. unfold bind at 1. rewrite E. cbn [snd st_log].
          rewrite L0. reflexivity. }
        rewrite count_prompt_app, N0. reflexivity.
  - intros pw inp' pl Hpw Hbad.
    unfold changePassPhrase. unfold bind at 1.
    rewrite (cpp_load_encrypted env prov opts s fn s1 f m pw inp' pl Hg Hf Henc Hpw).
    destruct (p_fromString prov (f_content f) (Some pw)) as [k | m' | m'] eqn:Hk.
    + exfalso. exact (Hbad k eq_refl).
    + exists m'. reflexivity.
    + exists "old passphrase error". reflexivity.
Qed.

(** The key at the default path [~/.ssh/id_rsa], encrypted; the path is
    asked for and the offered default accepted. *)
Definition demo_c5_state (inp : list string) : St :=
  mkSt (fs1 "/home/user/.ssh/id_rsa" "enc-key") inp [].

Definition demo_c5_s1 (inp : list string) : St :=
  mkSt (fs1 "/home/user/.ssh/id_rsa" "enc-key") inp
       [EPrompt "Enter file in which the key is (/home/user/.ssh/id_rsa): "].

Lemma changePassPhrase_old_passphrase_once_witness :
  (exists l, st_log (snd (changePassPhrase (demo_env 18) (demo_provider true)
                           demo_opts (demo_c5_state [""; "old"; "n"; "n"])))
             = (l ++ [])%list /\ count_prompt old_prompt l = 1) /\
  (exists msg, changePassPhrase (demo_env 18) (demo_provider true)
                 demo_opts (demo_c5_state [""; "wrong"]) =
     (Exit (Some ("Could not change passphrase: " ++ msg)),
      mkSt (fs1 "/home/user/.ssh/id_rsa" "enc-key") []
        [ERead "/home/user/.ssh/id_rsa"; EPrompt old_prompt; ERead "/home/user/.ssh/id_rsa";
         EPrompt "Enter file in which the key is (/home/user/.ssh/id_rsa): "])).
Proof.
  split.
  - exact (proj1 (proj2 (changePassPhrase_old_passphrase_once (demo_env 18) (demo_provider true)
             demo_opts (demo_c5_state [""; "old"; "n"; "n"]) "/home/user/.ssh/id_rsa"
             (demo_c5_s1 ["old"; "n"; "n"])
             (mkFile "enc-key" 384) "Passphrase must be provided for an encrypted key"
             eq_refl eq_refl eq_refl)) eq_refl).
  - apply (proj2 (proj2 (changePassPhrase_old_passphrase_once (demo_env 18) (demo_provider true)
             demo_opts (demo_c5_state [""; "wrong"]) "/home/user/.ssh/id_rsa"
             (demo_c5_s1 ["wrong"])
             (mkFile "enc-key" 384) "Passphrase must be provided for an encrypted key"
             eq_refl eq_refl eq_refl)) "wrong" [] [EPrompt old_prompt]).
    + split; reflexivity.
    + intros k H. vm_compute in H. discriminate H.
Defined.

(* ================================================================== *)
(** ** C6 *)

(** The answers read by the passphrase loop, taken two at a time. *)
Definition pairs_flat (pre : list (string * string)) : list string :=
  concat (map (fun ab => [fst ab; snd ab]) pre).

(** What one mismatched round leaves in the log (newest first). *)
Definition mismatch_round (pr1 pr2 : string) : list Event :=
  [EPrint "Passphrases do not match.  Try again."; EPrompt pr2; EPrompt pr1].

Definition mismatch_rounds (pr1 pr2 : string) (n : nat) : list Event :=
  concat (repeat (mismatch_round pr1 pr2) n).

(** The prompts of the last, unfinished round when input runs out. *)
Definition eof_events (pr1 pr2 : string) (tail : list string) : list Event :=
  match tail with [] => [EPrompt pr1] | _ => [EPrompt pr2; EPrompt pr1] end.

Lemma concat_repeat_snoc {T} (b : list T) n :
  (concat (repeat b n) ++ b)%list = concat (repeat b (S n)).
Proof.
  induction n as [| n IH]; simpl; [rewrite app_nil_r; reflexivity |].
  rewrite <- app_assoc, IH. reflexivity.
Qed.

Lemma confirm_loop_shape pr1 pr2 inp :
  exists pre tail,
    Forall (fun ab => fst ab <> snd ab) pre /\
    inp = (pairs_flat pre ++ tail)%list /\
    ((exists p rest, tail = p :: p :: rest /\
        confirm_loop pr1 pr2 inp =
          (Ret p, rest, ([EPrompt pr2; EPrompt pr1] ++
                         mismatch_rounds pr1 pr2 (length pre))%list)) \/
     (length tail <= 1 /\
        confirm_loop pr1 pr2 inp =
          (Raise EOFError, [], (eof_events pr1 pr2 tail ++
                                mismatch_rounds pr1 pr2 (length pre))%list))).
Proof.
  induction inp as [| x | x y r IH] using list_pair_ind.
  - exists [], []. repeat split; [constructor | right; split; [simpl; lia | reflexivity]].
  - exists [], [x]. repeat split; [constructor | right; split; [simpl; lia | reflexivity]].
  - simpl. destruct (String.eqb_spec x y) as [<- | Hxy].
    + exists [], (x :: x :: r). repeat split; [constructor |].
      left. exists x, r. split; reflexivity.
    + destruct IH as (pre & tail & Hpre & Hr & Hres).
      exists ((x, y) :: pre), tail. split; [constructor; assumption |].
      split; [simpl; rewrite Hr; reflexivity |].
      destruct Hres as [(p & rest & Ht & E) | (Hl & E)]; rewrite E; simpl length.
      * left. exists p, rest. split; [exact Ht |].
        unfold mismatch_rounds. rewrite <- concat_repeat_snoc.
        rewrite <- app_assoc. reflexivity.
      * right. split; [exact Hl |].
        unfold mismatch_rounds. rewrite <- concat_repeat_snoc.
        rewrite <- app_assoc. reflexivity.
Qed.

(** C6 (counterexample): the loop compares the answers in fixed pairs, so
    two equal consecutive answers that straddle a pair do not end it.  On
    the answers ["a"; "b"; "b"; "c"] of [_saveKey]'s passphrase prompt,
    the 2nd and 3rd answers agree, yet the pairs (a, b) and (b, c) both
    mismatch and the loop runs into the end of input. *)
Lemma passphrase_loop_misses_straddling_match :
  nth 1 ["a"; "b"; "b"; "c"] "" = nth 2 ["a"; "b"; "b"; "c"] "" /\
  saveKey_pass demo_opts (mkSt ∅ ["a"; "b"; "b"; "c"] []) =
    (Raise EOFError,
     mkSt ∅ [] [EPrompt "Enter passphrase (empty for no passphrase): ";
                EPrint "Passphrases do not match.  Try again.";
                EPrompt "Enter same passphrase again: ";
                EPrompt "Enter passphrase (empty for no passphrase): ";
                EPrint "Passphrases do not match.  Try again.";
                EPrompt "Enter same passphrase again: ";
                EPrompt "Enter passphrase (empty for no passphrase): "]).
Proof. split; reflexivity. Qed.

(** C6 (amended): the passphrase loop used by [_saveKey] and by
    [changePassPhrase] for the new passphrase reads the answers in pairs
    (1st/2nd, 3rd/4th, ...).  It accepts at the first pair of equal
    answers, whatever they are (the empty answer included), returning that
    answer after one mismatch message per earlier pair, without any bound
    on the number of rounds; if the input runs out before such a pair, it
    fails with end of input.  The file system is untouched either way. *)
Theorem passphrase_loop_pairs pr1 pr2 s :
  exists pre tail,
    Forall (fun ab => fst ab <> snd ab) pre /\
    st_inp s = (pairs_flat pre ++ tail)%list /\
    ((exists p rest, tail = p :: p :: rest /\
        passphrase_loop pr1 pr2 s =
          (Ret p, mkSt (st_fs s) rest
                    ([EPrompt pr2; EPrompt pr1] ++
                     mismatch_rounds pr1 pr2 (length pre) ++ st_log s)%list)) \/
     (length tail <= 1 /\
        passphrase_loop pr1 pr2 s =
          (Raise EOFError, mkSt (st_fs s) []
                    (eof_events pr1 pr2 tail ++
                     mismatch_rounds pr1 pr2 (length pre) ++ st_log s)%list))).
Proof.
  destruct (confirm_loop_shape pr1 pr2 (st_inp s)) as (pre & tail & Hpre & Hi & Hres).
  exists pre, tail. split; [exact Hpre |]. split; [exact Hi |].
  unfold passphrase_loop.
  destruct Hres as [(p & rest & Ht & E) | (Hl & E)]; rewrite E.
  - left. exists p, rest. split; [exact Ht |]. rewrite <- app_assoc. reflexivity.
  - right. split; [exact Hl |]. rewrite <- app_assoc. reflexivity.
Qed.

(* ================================================================== *)
(** ** C3 *)

Lemma confirm_overwrite_existing fn s ans rest :
  is_Some (st_fs s !! fn) -> st_inp s = ans :: rest ->
  confirm_overwrite fn s =
    (match ans with
     | EmptyString => Raise IndexError
     | String c _ => if Ascii.eqb c "y" || Ascii.eqb c "Y" then Ret tt else Exit None
     end,
     mkSt (st_fs s) rest
       (EPrompt "Overwrite (y/n)? " :: EPrint (fn ++ " already exists.") :: st_log s)).
Proof.
  intros Hex Hinp. unfold confirm_overwrite, path_exists, bind at 1.
  rewrite (bool_decide_eq_true_2 _ Hex).
  unfold bind, print, log_ev, input, read_line. cbn [st_inp st_fs st_log].
  rewrite Hinp. cbv beta iota. unfold first_is_y.
  destruct ans as [| c t]; [reflexivity |].
  unfold ret. destruct (Ascii.eqb c "y" || Ascii.eqb c "Y"); reflexivity.
Qed.

(** A [_saveKey] run whose target exists: the answer to the overwrite
    question is ["your call"], which starts with [y]. *)
Definition demo_overwrite_state : St :=
  mkSt (fs1 "/k" "old-key") ["your call"; ""; ""] [].

(** C3 (counterexample): the overwrite question only looks at the first
    letter of the answer.  With "/k" present and the answer "your call",
    which is no explicit yes, [_saveKey] goes on and replaces "/k" (and
    writes "/k.pub"). *)
Lemma saveKey_overwrites_on_any_y_answer :
  let run := _saveKey (demo_env 18) (demo_provider true) demo_key
               (with_file demo_opts "/k") demo_overwrite_state in
  fst run = Ret tt /\
  st_fs demo_overwrite_state !! "/k" = Some (mkFile "old-key" 384) /\
  st_fs (snd run) !! "/k" = Some (mkFile "PRIV(v1,)" private_mode).
Proof. vm_compute. split; [reflexivity | split; reflexivity]. Qed.

(** Whether an answer to "Overwrite (y/n)? " lets [_saveKey] go on:
    its first character is [y] or [Y]. *)
Definition answer_starts_y (ans : string) : bool :=
  match ans with
  | EmptyString => false
  | String c _ => Ascii.eqb c "y" || Ascii.eqb c "Y"
  end.

(** C3 (amended): when the resolved private-key path already exists,
    [_saveKey] prints that it exists and reads one answer to
    "Overwrite (y/n)? ".  Only the first character is examined: an answer
    starting with [y] or [Y] (any such answer, not only "yes") goes on to
    write the key files exactly as a run without the question; any other
    answer ends the run unsuccessfully right after the question, with no
    file written and the filesystem unchanged. *)
Theorem saveKey_overwrite_first_letter env prov key opts s fn s1 ans rest :
  saveKey_resolve env key opts s = (Ret fn, s1) ->
  is_Some (st_fs s1 !! fn) ->
  st_inp s1 = ans :: rest ->
  let s2 := mkSt (st_fs s1) rest
              (EPrompt "Overwrite (y/n)? " :: EPrint (fn ++ " already exists.") ::
               st_log s1) in
  st_fs s1 = st_fs s /\
  (answer_starts_y ans = false ->
     exists r, _saveKey env prov key opts s = (r, s2) /\ r <> Ret tt) /\
  (answer_starts_y ans = true ->
     _saveKey env prov key opts s =
       (do_ saveKey_persist env prov key opts fn;
        saveKey_report prov key opts fn) s2).
Proof.
  intros Hr Hex Hinp s2.
  pose proof (confirm_overwrite_existing fn s1 ans rest Hex Hinp) as E.
  split; [exact (ro_fs _ _ _ _ (ro_saveKey_resolve env key opts) Hr) |].
  unfold _saveKey. rewrite (bind_step _ _ _ _ _ Hr).
  split; intros Hy; unfold bind at 1; rewrite E; unfold answer_starts_y in Hy;
    destruct ans as [| c t]; try discriminate Hy; try rewrite Hy.
  - eexists. split; [reflexivity | discriminate].
  - eexists. split; [reflexivity | discriminate].
  - reflexivity.
Qed.

Lemma saveKey_overwrite_first_letter_witness :
  saveKey_resolve (demo_env 18) demo_key (with_file demo_opts "/k")
    (mkSt (fs1 "/k" "old-key") ["no"] []) =
    (Ret "/k", mkSt (fs1 "/k" "old-key") ["no"] []) /\
  exists r,
  _saveKey (demo_env 18) (demo_provider true) demo_key (with_file demo_opts "/k")
    (mkSt (fs1 "/k" "old-key") ["no"] []) =
    (r, mkSt (fs1 "/k" "old-key") []
                  [EPrompt "Overwrite (y/n)? "; EPrint "/k already exists."]) /\
  r <> Ret tt.
Proof.
  split; [reflexivity |].
  exact (proj1 (proj2 (saveKey_overwrite_first_letter (demo_env 18)
           (demo_provider true) demo_key (with_file demo_opts "/k")
           (mkSt (fs1 "/k" "old-key") ["no"] []) "/k"
           (mkSt (fs1 "/k" "old-key") ["no"] []) "no" []
           eq_refl (mk_is_Some _ _ eq_refl) eq_refl)) eq_refl).
Defined.

(* ================================================================== *)
(** ** C9 *)

(** Everything before the report depends on the options only through the
    file name, the passphrase options and the subtype. *)
Lemma saveKey_with_format env prov key opts f s :
  _saveKey env prov key (with_format opts f) s =
  (do filename <- saveKey_resolve env key opts;
   do_ confirm_overwrite filename;
   do_ saveKey_persist env prov key opts filename;
   saveKey_report prov key (with_format opts f) filename) s.
Proof. reflexivity. Qed.

(** C9: with a fingerprint format other than "md5-hex" and
    "sha256-base64", [_saveKey] leaves the file system exactly as a run
    with the valid format "sha256-base64" does.  Where that run succeeds
    (so both key files have been written), this one raises
    [BadFingerPrintFormat] with both files on disk; otherwise both runs
    end with the same outcome. *)
Theorem saveKey_bad_format_after_writes env prov key opts f s :
  f <> "md5-hex" -> f <> "sha256-base64" ->
  let '(rb, sb) := _saveKey env prov key (with_format opts f) s in
  let '(rg, sg) := _saveKey env prov key (with_format opts "sha256-base64") s in
  st_fs sb = st_fs sg /\
  (rg = Ret tt ->
     rb = Raise (BadFingerPrintFormat ("Unsupported fingerprint format: " ++ f)) /\
     exists fn data pub,
       st_fs sb = <[fn ++ ".pub" := mkFile pub (creation_mode env)]>
                    (<[fn := mkFile data private_mode]> (st_fs s))) /\
  (rg <> Ret tt -> rb = rg).
Proof.
  intros Hm Hs.
  destruct (_saveKey env prov key (with_format opts "sha256-base64") s) as [rg sg] eqn:Eg.
  pose proof Eg as Eg'.
  rewrite saveKey_with_format in Eg |- *.
  unfold bind at 1 in Eg. unfold bind at 1.
  destruct (saveKey_resolve env key opts s) as [[fn | m | e] s1];
    [| injection Eg as <- <-; split; [reflexivity | split; [discriminate | auto]] ..].
  unfold bind at 1 in Eg. unfold bind at 1.
  destruct (confirm_overwrite fn s1) as [[[] | m | e] s2];
    [| injection Eg as <- <-; split; [reflexivity | split; [discriminate | auto]] ..].
  unfold bind at 1 in Eg. unfold bind at 1.
  destruct (saveKey_persist env prov key opts fn s2) as [[[] | m | e] s4];
    [| injection Eg as <- <-; split; [reflexivity | split; [discriminate | auto]] ..].
  unfold saveKey_report at 1, enumrepresentation at 1.
  change (o_format (with_format opts f)) with f.
  rewrite (proj2 (String.eqb_neq f "md5-hex") Hm),
          (proj2 (String.eqb_neq f "sha256-base64") Hs).
  unfold bind at 1, raise. cbv beta iota.
  unfold saveKey_report, enumrepresentation, bind, ret, print, log_ev in Eg.
  simpl in Eg. injection Eg as <- <-. simpl.
  split; [reflexivity |]. split; [| intros H; exfalso; exact (H eq_refl)].
  intros _. split; [reflexivity |].
  destruct (saveKey_ok _ _ _ _ _ _ Eg')
    as (fn' & s1' & s2' & s3' & pw & data & pub & _ & _ & _ & _ & _ & _ & F & _).
  exists fn', data, pub. exact F.
Qed.

Lemma saveKey_bad_format_after_writes_witness :
  "sha1" <> "md5-hex" /\ "sha1" <> "sha256-base64" /\
  fst (_saveKey (demo_env 18) (demo_provider true) demo_key
         (with_format (with_file demo_opts "/k") "sha256-base64") demo_save_state)
    = Ret tt /\
  (let '(rb, sb) := _saveKey (demo_env 18) (demo_provider true) demo_key
                      (with_format (with_file demo_opts "/k") "sha1") demo_save_state in
   let '(rg, sg) := _saveKey (demo_env 18) (demo_provider true) demo_key
                      (with_format (with_file demo_opts "/k") "sha256-base64")
                      demo_save_state in
   st_fs sb = st_fs sg /\
   (rg = Ret tt ->
      rb = Raise (BadFingerPrintFormat ("Unsupported fingerprint format: " ++ "sha1")) /\
      exists fn data pub,
        st_fs sb = <[fn ++ ".pub" := mkFile pub (creation_mode (demo_env 18))]>
                     (<[fn := mkFile data private_mode]> (st_fs demo_save_state))) /\
   (rg <> Ret tt -> rb = rg)).
Proof.
  split; [discriminate |]. split; [discriminate |]. split; [reflexivity |].
  apply saveKey_bad_format_after_writes; discriminate.
Defined.

(* ================================================================== *)
(** ** Further properties of [ckeygen.py] *)

Lemma supportedKeyTypes_names n :
  supportedKeyTypes n = None <-> ~ In n supportedKeyTypeNames.
Proof.
  unfold supportedKeyTypes, supportedKeyTypeNames. simpl.
  destruct (String.eqb_spec n "rsa"); [subst; split; [discriminate | tauto] |].
  destruct (String.eqb_spec n "dsa"); [subst; split; [discriminate | tauto] |].
  destruct (String.eqb_spec n "ecdsa"); [subst; split; [discriminate | tauto] |].
  destruct (String.eqb_spec n "ed25519"); [subst; split; [discriminate | tauto] |].
  split; [intros _ H; intuition congruence | reflexivity].
Qed.

(** [run] with a key type: the type is looked up in lower case; an
    unknown type exits at once, before any prompt, print or file access,
    naming the accepted types; a known one prints the banner with the type
    as given and runs its generator.  The other command flags play no role
    then. *)
Theorem run_key_type help env prov r s t :
  r_type r = Some t -> t <> "" ->
  (~ In (lower t) supportedKeyTypeNames ->
     run help env prov r s =
       (Exit (Some ("Key type was " ++ t ++
                    ", must be one of rsa, dsa, ecdsa, ed25519")), s)) /\
  (In (lower t) supportedKeyTypeNames ->
     exists gen, supportedKeyTypes (lower t) = Some gen /\
       run help env prov r s =
         (do_ print ("Generating public/private " ++ t ++ " key pair.");
          gen env prov (r_opts r)) s).
Proof.
  intros Ht Hne. unfold run. rewrite Ht.
  assert (Htr : truthy_s (Some t) = true)
    by (simpl; destruct (String.eqb_spec t ""); [contradiction | reflexivity]).
  rewrite Htr. cbn [opt_str]. split.
  - intros Hn. rewrite (proj2 (supportedKeyTypes_names (lower t)) Hn). reflexivity.
  - intros Hi. destruct (supportedKeyTypes (lower t)) as [gen |] eqn:E.
    + exists gen. split; reflexivity.
    + exfalso. exact (proj1 (supportedKeyTypes_names _) E Hi).
Qed.

Lemma run_key_type_witness :
  lower "RSA" = "rsa" /\ ~ In (lower "EdDSA") supportedKeyTypeNames /\
  run (ret tt) (demo_env 18) (demo_provider true)
      (mkRunOpts (Some "EdDSA") true false false demo_opts) demo_save_state =
    (Exit (Some "Key type was EdDSA, must be one of rsa, dsa, ecdsa, ed25519"),
     demo_save_state).
Proof.
  split; [reflexivity |].
  assert (H : ~ In (lower "EdDSA") supportedKeyTypeNames)
    by (vm_compute; intuition discriminate).
  split; [exact H |].
  exact (proj1 (run_key_type (ret tt) (demo_env 18) (demo_provider true)
    (mkRunOpts (Some "EdDSA") true false false demo_opts) demo_save_state "EdDSA"
    eq_refl ltac:(discriminate)) H).
Defined.

Lemma fromFile_missing prov p pw s :
  st_fs s !! p = None ->
  fromFile prov p pw s =
    (Raise FileNotFoundError, mkSt (st_fs s) (st_inp s) (ERead p :: st_log s)).
Proof.
  intros Hf. unfold fromFile, read_file, bind. cbn [st_fs]. rewrite Hf. reflexivity.
Qed.

(** The last step of [displayPublicKey]: print the public key. *)
Definition show_outcome (prov : Provider) (k : Key) (s : St) : Res unit * St :=
  match p_public_bytes prov k None with
  | Ret pub => (Ret tt, mkSt (st_fs s) (st_inp s) (EPrint pub :: st_log s))
  | Exit x => (Exit x, s)
  | Raise e => (Raise e, s)
  end.

(** [displayPublicKey] on a key file that needs no passphrase, once the
    key path is settled (given with [--filename] or asked for): a missing
    file exits with "... could not be opened, please specify a file."; an
    unreadable key lets [BadKeyError] escape uncaught; a key that loads has
    its public part printed, in OpenSSH form without a comment.  After the
    path, the file is read once, nothing more is asked and nothing is
    written. *)
Theorem displayPublicKey_unencrypted env prov opts s fn s1 :
  _getKeyOrDefault env opts "rsa" s = (Ret fn, s1) ->
  let s2 := mkSt (st_fs s1) (st_inp s1) (ERead fn :: st_log s1) in
  (st_fs s1 !! fn = None ->
     displayPublicKey env prov opts s =
       (Exit (Some (fn ++ " could not be opened, please specify a file.")), s2)) /\
  (forall f, st_fs s1 !! fn = Some f ->
     (forall m, p_fromString prov (f_content f) None = LBad m ->
        displayPublicKey env prov opts s = (Raise (BadKeyError m), s2)) /\
     (forall k, p_fromString prov (f_content f) None = Loaded k ->
        displayPublicKey env prov opts s = show_outcome prov k s2)).
Proof.
  intros Hg. cbv zeta.
  unfold displayPublicKey.
  rewrite (bind_step _ _ _ _ _ Hg).
  split.
  - intros Hm. unfold bind at 1, try_ at 1.
    rewrite (fromFile_missing prov _ None s1 Hm). reflexivity.
  - intros f Hf. split.
    + intros m Hb. unfold bind at 1, try_ at 1.
      rewrite (fromFile_eval prov _ None s1 f Hf), Hb. reflexivity.
    + intros k Hk. unfold bind at 1, try_ at 1.
      rewrite (fromFile_eval prov _ None s1 f Hf), Hk.
      unfold bind, lift, show_outcome, print, log_ev. simpl.
      destruct (p_public_bytes prov k None); reflexivity.
Qed.

Lemma displayPublicKey_unencrypted_witness :
  displayPublicKey (demo_env 18) (demo_provider true) demo_opts
    (mkSt (fs1 "/home/user/.ssh/id_rsa" "plain-key") [""] []) =
    (Ret tt, mkSt (fs1 "/home/user/.ssh/id_rsa" "plain-key") []
               [EPrint "PUB "; ERead "/home/user/.ssh/id_rsa";
                EPrompt "Enter file in which the key is (/home/user/.ssh/id_rsa): "]).
Proof.
  exact (proj2 (proj2 (displayPublicKey_unencrypted (demo_env 18) (demo_provider true)
           demo_opts (mkSt (fs1 "/home/user/.ssh/id_rsa" "plain-key") [""] [])
           "/home/user/.ssh/id_rsa"
           (mkSt (fs1 "/home/user/.ssh/id_rsa" "plain-key") []
              [EPrompt "Enter file in which the key is (/home/user/.ssh/id_rsa): "])
           eq_refl)
           (mkFile "plain-key" 384) eq_refl) demo_key eq_refl).
Defined.

(** [displayPublicKey] on a key file that needs a passphrase, once the key
    path is settled (given with [--filename] or asked for): the passphrase
    given with [--pass] is used, otherwise "Enter passphrase: " is asked
    once; the file is read a second time with it.  A wrong passphrase is
    not caught: the [BadKeyError] or [EncryptedKeyError] of the second read
    escapes, with no retry and nothing written. *)
Theorem displayPublicKey_encrypted env prov opts s fn s1 f m pw inp' pl :
  _getKeyOrDefault env opts "rsa" s = (Ret fn, s1) ->
  st_fs s1 !! fn = Some f ->
  p_fromString prov (f_content f) None = LEncrypted m ->
  (if truthy_s (o_pass opts)
   then pw = opt_str (o_pass opts) /\ inp' = st_inp s1 /\ pl = []
   else st_inp s1 = pw :: inp' /\ pl = [EPrompt "Enter passphrase: "]) ->
  let s2 := mkSt (st_fs s1) inp' (ERead fn :: pl ++ ERead fn :: st_log s1)%list in
  displayPublicKey env prov opts s =
    match p_fromString prov (f_content f) (Some pw) with
    | Loaded k => show_outcome prov k s2
    | LEncrypted m' => (Raise (EncryptedKeyError m'), s2)
    | LBad m' => (Raise (BadKeyError m'), s2)
    end.
Proof.
  intros Hg Hf Henc Hpw s2.
  unfold displayPublicKey.
  rewrite (bind_step _ _ _ _ _ Hg).
  unfold bind at 1, try_ at 1.
  rewrite (fromFile_eval prov _ None s1 f Hf), Henc. cbv beta iota.
  destruct (truthy_s (o_pass opts)).
  - destruct Hpw as [-> [-> ->]].
    unfold bind at 1, ret at 1. cbv beta iota.
    rewrite (fromFile_eval prov _ _ (mkSt (st_fs s1) _ _) f Hf).
    unfold s2. simpl.
    destruct (p_fromString prov (f_content f) (Some (opt_str (o_pass opts))));
      [unfold bind, lift, show_outcome, print, log_ev; simpl;
       destruct (p_public_bytes prov k None) | ..]; reflexivity.
  - destruct Hpw as [Hinp ->].
    unfold bind at 1, getpass, read_line. cbn [st_inp st_fs st_log].
    rewrite Hinp. cbv beta iota.
    rewrite (fromFile_eval prov _ _ (mkSt (st_fs s1) _ _) f Hf).
    unfold s2. simpl.
    destruct (p_fromString prov (f_content f) (Some pw));
      [unfold bind, lift, show_outcome, print, log_ev; simpl;
       destruct (p_public_bytes prov k None) | ..]; reflexivity.
Qed.

Lemma displayPublicKey_encrypted_witness :
  displayPublicKey (demo_env 18) (demo_provider true) demo_opts
    (demo_c5_state [""; "wrong"]) =
    (Raise (BadKeyError "incorrect passphrase"),
     mkSt (fs1 "/home/user/.ssh/id_rsa" "enc-key") []
       [ERead "/home/user/.ssh/id_rsa"; EPrompt "Enter passphrase: ";
        ERead "/home/user/.ssh/id_rsa";
        EPrompt "Enter file in which the key is (/home/user/.ssh/id_rsa): "]).
Proof.
  exact (displayPublicKey_encrypted (demo_env 18) (demo_provider true)
           demo_opts (demo_c5_state [""; "wrong"]) "/home/user/.ssh/id_rsa"
           (demo_c5_s1 ["wrong"]) (mkFile "enc-key" 384)
           "Passphrase must be provided for an encrypted key" "wrong" []
           [EPrompt "Enter passphrase: "]
           eq_refl eq_refl eq_refl (conj eq_refl eq_refl)).
Defined.

(** [printFingerprint] with an unsupported [--format]: once the key path
    is known, it raises [BadFingerPrintFormat] before reading any file. *)
Theorem printFingerprint_bad_format env prov opts s fn s1 :
  o_format opts <> "md5-hex" -> o_format opts <> "sha256-base64" ->
  _getKeyOrDefault env opts "rsa" s = (Ret fn, s1) ->
  printFingerprint env prov opts s =
    (Raise (BadFingerPrintFormat ("Unsupported fingerprint format: " ++ o_format opts)), s1).
Proof.
  intros Hm Hs Hg. unfold printFingerprint. rewrite (bind_step _ _ _ _ _ Hg).
  unfold fingerprint_at, bind at 1, path_exists. cbv beta iota.
  unfold enumrepresentation.
  rewrite (proj2 (String.eqb_neq _ "md5-hex") Hm),
          (proj2 (String.eqb_neq _ "sha256-base64") Hs).
  reflexivity.
Qed.

Lemma printFingerprint_bad_format_witness :
  printFingerprint (demo_env 18) (demo_provider true)
    (with_format (with_file demo_opts "/k") "sha1") demo_fp_state =
    (Raise (BadFingerPrintFormat "Unsupported fingerprint format: sha1"), demo_fp_state).
Proof.
  exact (printFingerprint_bad_format (demo_env 18) (demo_provider true)
           (with_format (with_file demo_opts "/k") "sha1") demo_fp_state "/k" demo_fp_state
           ltac:(discriminate) ltac:(discriminate) eq_refl).
Defined.

(** [printFingerprint] when there is no [.pub] file beside the key path:
    a missing key file exits with "... could not be opened, please specify
    a file."; an unparsable key exits with "bad key"; a private key that
    needs a passphrase is not handled: its [EncryptedKeyError] escapes. *)
Theorem printFingerprint_no_pub env prov opts s fn s1 :
  (o_format opts = "md5-hex" \/ o_format opts = "sha256-base64") ->
  _getKeyOrDefault env opts "rsa" s = (Ret fn, s1) ->
  st_fs s1 !! (fn ++ ".pub") = None ->
  let s2 := mkSt (st_fs s1) (st_inp s1) (ERead fn :: st_log s1) in
  (st_fs s1 !! fn = None ->
     printFingerprint env prov opts s =
       (Exit (Some (fn ++ " could not be opened, please specify a file.")), s2)) /\
  (forall f, st_fs s1 !! fn = Some f ->
     (forall m, p_fromString prov (f_content f) None = LEncrypted m ->
        printFingerprint env prov opts s = (Raise (EncryptedKeyError m), s2)) /\
     (forall m, p_fromString prov (f_content f) None = LBad m ->
        printFingerprint env prov opts s = (Exit (Some "bad key"), s2))).
Proof.
  intros Hfmt Hg Hp. cbv zeta.
  assert (Hfr : exists fmt, enumrepresentation (o_format opts) s1 = (Ret fmt, s1)).
  { unfold enumrepresentation.
    destruct Hfmt as [-> | ->]; eexists; reflexivity. }
  destruct Hfr as [fmt Hfr].
  unfold printFingerprint. rewrite (bind_step _ _ _ _ _ Hg).
  split; [intros Hm | intros f Hf; split; intros m He];
    unfold fingerprint_at, bind at 1, path_exists;
    rewrite (bool_decide_eq_false_2 _ (fun H => is_Some_None (eq_ind _ _ H _ Hp)));
    cbv beta iota zeta;
    rewrite (bind_step _ _ _ _ _ Hfr);
    unfold try_, bind at 1.
  - rewrite (fromFile_missing prov _ None s1 Hm). reflexivity.
  - rewrite (fromFile_eval prov _ None s1 f Hf), He. reflexivity.
  - rewrite (fromFile_eval prov _ None s1 f Hf), He. reflexivity.
Qed.

Lemma printFingerprint_no_pub_witness :
  printFingerprint (demo_env 18) (demo_provider true) (with_file demo_opts "/k")
    (demo_cpp_state []) =
    (Raise (EncryptedKeyError "Passphrase must be provided for an encrypted key"),
     mkSt (fs1 "/k" "enc-key") [] [ERead "/k"]).
Proof.
  exact (proj1 (proj2 (printFingerprint_no_pub (demo_env 18) (demo_provider true)
           (with_file demo_opts "/k") (demo_cpp_state []) "/k" (demo_cpp_state [])
           (or_intror eq_refl) eq_refl eq_refl) (mkFile "enc-key" 384) eq_refl)
           "Passphrase must be provided for an encrypted key" eq_refl).
Defined.

(** [changePassPhrase] when the key file cannot be used as it is: a
    missing file exits with "... could not be opened, please specify a
    file."; a file the key library rejects exits with
    "Could not change passphrase: <reason>".  Either way no new
    passphrase is asked for and nothing is written. *)
Theorem changePassPhrase_load_errors env prov opts s fn s1 :
  _getKeyOrDefault env opts "rsa" s = (Ret fn, s1) ->
  let s2 := mkSt (st_fs s1) (st_inp s1) (ERead fn :: st_log s1) in
  (st_fs s1 !! fn = None ->
     changePassPhrase env prov opts s =
       (Exit (Some (fn ++ " could not be opened, please specify a file.")), s2)) /\
  (forall f m, st_fs s1 !! fn = Some f -> p_fromString prov (f_content f) None = LBad m ->
     changePassPhrase env prov opts s =
       (Exit (Some ("Could not change passphrase: " ++ m)), s2)).
Proof.
  intros Hg. cbv zeta. split; [intros Hm | intros f m Hf Hb];
    unfold changePassPhrase, bind at 1;
    unfold cpp_load; rewrite (bind_step _ _ _ _ _ Hg);
    unfold bind at 1, try_ at 1.
  - rewrite (fromFile_missing prov _ None s1 Hm). reflexivity.
  - rewrite (fromFile_eval prov _ None s1 f Hf), Hb. reflexivity.
Qed.

Lemma changePassPhrase_load_errors_witness :
  changePassPhrase (demo_env 18) (demo_provider true) (with_file demo_opts "/k")
    (mkSt (fs1 "/k" "junk") [] []) =
    (Exit (Some "Could not change passphrase: Cannot guess the type of the key"),
     mkSt (fs1 "/k" "junk") [] [ERead "/k"]).
Proof.
  exact (proj2 (changePassPhrase_load_errors (demo_env 18) (demo_provider true)
           (with_file demo_opts "/k") (mkSt (fs1 "/k" "junk") [] []) "/k"
           (mkSt (fs1 "/k" "junk") [] []) eq_refl)
           (mkFile "junk" 384) "Cannot guess the type of the key" eq_refl eq_refl).
Defined.

(** A successful [changePassPhrase] rewrites the key file it loaded in
    place: the file existed, its new bytes are the key serialised with the
    new passphrase (and checked to load with it), its permission bits are
    kept, and no other file changes. The new passphrase is the one the
    new-passphrase step returned after the key was loaded: [--newpass] when
    given, otherwise the agreed answer of the two new-passphrase prompts. *)
Theorem changePassPhrase_rewrites_in_place env prov opts s s' :
  changePassPhrase env prov opts s = (Ret tt, s') ->
  exists fn f k pw s1 np s2 data k',
    cpp_load env prov opts s = (Ret (fn, k), s1) /\
    st_fs s !! fn = Some f /\
    p_fromString prov (f_content f) pw = Loaded k /\
    cpp_newpass opts s1 = (Ret np, s2) /\
    (truthy_s (o_newpass opts) = true -> np = opt_str (o_newpass opts)) /\
    p_private_bytes prov k (resolve_subtype (o_subtype opts) k) np = Ret data /\
    p_fromString prov data (Some np) = Loaded k' /\
    st_fs s' = <[fn := mkFile data (f_mode f)]> (st_fs s).
Proof.
  unfold changePassPhrase, bind at 1.
  destruct (cpp_load env prov opts s) as [[[fn k] | x | e] s1] eqn:E1; try discriminate.
  destruct (cpp_load_ok _ _ _ _ _ _ _ E1) as (f & pw & Hf & Hk & F1).
  cbv beta iota. unfold bind at 1.
  destruct (cpp_newpass opts s1) as [[np | x | e] s2] eqn:E2; try discriminate.
  pose proof (ro_fs _ _ _ _ (ro_cpp_newpass opts) E2) as F2.
  assert (Hnp : truthy_s (o_newpass opts) = true -> np = opt_str (o_newpass opts)).
  { intros Ht. unfold cpp_newpass in E2. rewrite Ht in E2. unfold ret in E2.
    injection E2 as <- _. reflexivity. }
  unfold bind at 1, try_ at 1, lift.
  destruct (p_private_bytes prov k (resolve_subtype (o_subtype opts) k) np)
    as [data | x | e] eqn:Ep; try discriminate.
  unfold cpp_commit, bind, try_, fromString.
  destruct (p_fromString prov data (Some np)) as [k' | m | m] eqn:Ev; try discriminate.
  unfold ret, open_write, write_file, print, log_ev. simpl.
  rewrite F2, F1, Hf.
  destruct (env_fault env fn); try discriminate.
  simpl. intros E. injection E as <-. simpl.
  exists fn, f, k, pw, s1, np, s2, data, k'. repeat split; assumption.
Qed.

Lemma changePassPhrase_rewrites_in_place_witness :
  changePassPhrase (demo_env 18) (demo_provider true)
    (with_file demo_opts "/k") (demo_cpp_state ["old"; "n"; "n"]) =
    (Ret tt, snd (changePassPhrase (demo_env 18) (demo_provider true)
                    (with_file demo_opts "/k") (demo_cpp_state ["old"; "n"; "n"]))) /\
  exists fn f k pw s1 np s2 data k',
    cpp_load (demo_env 18) (demo_provider true) (with_file demo_opts "/k")
      (demo_cpp_state ["old"; "n"; "n"]) = (Ret (fn, k), s1) /\
    st_fs (demo_cpp_state ["old"; "n"; "n"]) !! fn = Some f /\
    p_fromString (demo_provider true) (f_content f) pw = Loaded k /\
    cpp_newpass (with_file demo_opts "/k") s1 = (Ret np, s2) /\
    (truthy_s (o_newpass (with_file demo_opts "/k")) = true ->
       np = opt_str (o_newpass (with_file demo_opts "/k"))) /\
    p_private_bytes (demo_provider true) k (resolve_subtype (o_subtype demo_opts) k) np
      = Ret data /\
    p_fromString (demo_provider true) data (Some np) = Loaded k' /\
    st_fs (snd (changePassPhrase (demo_env 18) (demo_provider true)
                  (with_file demo_opts "/k") (demo_cpp_state ["old"; "n"; "n"]))) =
      <[fn := mkFile data (f_mode f)]> (st_fs (demo_cpp_state ["old"; "n"; "n"])).
Proof.
  split; [reflexivity |].
  apply (changePassPhrase_rewrites_in_place (demo_env 18) (demo_provider true)
           (with_file demo_opts "/k") (demo_cpp_state ["old"; "n"; "n"])).
  reflexivity.
Defined.

(** ** Runs that never touch the terminal *)

Definition no_prompt (e : Event) : Prop :=
  match e with EPrompt _ => False | _ => True end.

(** From [s], [m] reads no terminal line and shows no prompt. *)
Definition quiet_at {A} (m : M A) (s : St) : Prop :=
  st_inp (snd (m s)) = st_inp s /\
  exists l, st_log (snd (m s)) = (l ++ st_log s)%list /\ Forall no_prompt l.

Definition quiet {A} (m : M A) : Prop := forall s, quiet_at m s.

Lemma q_ret {A} (a : A) : quiet (ret a).
Proof. intros s. split; [reflexivity |]. exists []. auto. Qed.

Lemma q_raise {A} e : quiet (A:=A) (raise e).
Proof. intros s. split; [reflexivity |]. exists []. auto. Qed.

Lemma q_exit {A} m : quiet (A:=A) (sys_exit m).
Proof. intros s. split; [reflexivity |]. exists []. auto. Qed.

Lemma q_lift {A} (r : Res A) : quiet (lift r).
Proof. intros s. split; [reflexivity |]. exists []. auto. Qed.

Lemma q_print m : quiet (print m).
Proof. intros s. split; [reflexivity |]. exists [EPrint m]. simpl. repeat constructor. Qed.

Lemma q_read_file p : quiet (read_file p).
Proof.
  intros s. unfold quiet_at, read_file.
  destruct (st_fs s !! p); (split; [reflexivity |]; exists [ERead p]; simpl; repeat constructor).
Qed.

Lemma q_path_exists p : quiet (path_exists p).
Proof. intros s. split; [reflexivity |]. exists []. auto. Qed.

Lemma q_write_file env p m d : quiet (write_file env p m d).
Proof.
  intros s. unfold quiet_at, write_file.
  destruct (env_fault env p); simpl; (split; [reflexivity |]);
    [exists [EWrite p m] | exists [] | exists [EWrite p m]]; simpl; repeat constructor.
Qed.

Lemma q_os_unlink env p : quiet (os_unlink env p).
Proof.
  intros s. unfold quiet_at, os_unlink.
  destruct (env_unlink_fails env p); [split; [reflexivity | exists []; auto] |].
  destruct (st_fs s !! p); simpl; (split; [reflexivity |]);
    [exists [EUnlink p] | exists []]; simpl; repeat constructor.
Qed.

Lemma q_os_rename env p q : quiet (os_rename env p q).
Proof.
  intros s. unfold quiet_at, os_rename.
  destruct (env_rename_fails env q); [split; [reflexivity | exists []; auto] |].
  destruct (st_fs s !! p); simpl; (split; [reflexivity |]);
    [exists [ERename p q] | exists []]; simpl; repeat constructor.
Qed.

Lemma q_chmod p mode : quiet (chmod p mode).
Proof.
  intros s. unfold quiet_at, chmod.
  destruct (st_fs s !! p); simpl;
    (split; [reflexivity |]); [exists [EChmod p mode] | exists []];
    simpl; repeat constructor.
Qed.

Lemma q_open_write env p d : quiet (open_write env p d).
Proof.
  intros s. unfold quiet_at, open_write, write_file.
  destruct (env_fault env p); simpl; (split; [reflexivity |]);
    [eexists [_] | exists [] | eexists [_]]; simpl; repeat constructor.
Qed.

Lemma q_bind {A B} (m : M A) (k : A -> M B) :
  quiet m -> (forall a, quiet (k a)) -> quiet (bind m k).
Proof.
  intros Hm Hk s. unfold quiet_at, bind. specialize (Hm s). unfold quiet_at in Hm.
  destruct (m s) as [[a | msg | e] s1]; simpl in *; auto.
  destruct Hm as [Hi [l [Hl Hq]]].
  destruct (Hk a s1) as [Hi' [l' [Hl' Hq']]].
  split; [congruence |].
  exists (l' ++ l)%list. rewrite Hl', Hl, app_assoc. split; auto.
  apply Forall_app; auto.
Qed.

Lemma q_try {A} (m : M A) (h : Exc -> option (M A)) :
  quiet m -> (forall e k, h e = Some k -> quiet k) -> quiet (try_ m h).
Proof.
  intros Hm Hh s. unfold quiet_at, try_. specialize (Hm s). unfold quiet_at in Hm.
  destruct (m s) as [[a | msg | e] s1]; simpl in *; auto.
  destruct (h e) as [k |] eqn:He; simpl; auto.
  destruct Hm as [Hi [l [Hl Hq]]].
  destruct (Hh e k He s1) as [Hi' [l' [Hl' Hq']]].
  split; [congruence |].
  exists (l' ++ l)%list. rewrite Hl', Hl, app_assoc. split; auto.
  apply Forall_app; auto.
Qed.

Ltac quiet_steps :=
  repeat (cbv beta;
    match goal with
    | |- quiet (bind _ _) => apply q_bind; [ | intros ? ]
    | |- quiet (try_ _ _) =>
        apply q_try;
        [ | let e := fresh "e" in let k := fresh "k" in let H := fresh "Hh" in
            intros e k H; destruct e; try discriminate H; injection H as <- ]
    | |- quiet (ret _) => apply q_ret
    | |- quiet (raise _) => apply q_raise
    | |- quiet (sys_exit _) => apply q_exit
    | |- quiet (lift _) => apply q_lift
    | |- quiet (print _) => apply q_print
    | |- quiet (read_file _) => apply q_read_file
    | |- quiet (path_exists _) => apply q_path_exists
    | |- quiet (setContent _ _ _) => unfold setContent; cbv zeta
    | |- quiet (write_file _ _ _ _) => apply q_write_file
    | |- quiet (os_unlink _ _) => apply q_os_unlink
    | |- quiet (os_rename _ _ _) => apply q_os_rename
    | |- quiet (chmod _ _) => apply q_chmod
    | |- quiet (open_write _ _ _) => apply q_open_write
    | |- quiet (fromFile _ _ _) => unfold fromFile
    | |- quiet (fromString _ _ _) => unfold fromString
    | |- quiet (enumrepresentation _) => unfold enumrepresentation
    | |- quiet _ => case_match
    end).

(** [changePassPhrase] with [--filename], [--pass] and [--newpass] given
    never reads the terminal nor shows a prompt, whatever the key file
    holds and however the run ends. *)
Theorem changePassPhrase_noninteractive env prov opts :
  truthy_s (o_filename opts) = true ->
  truthy_s (o_pass opts) = true ->
  truthy_s (o_newpass opts) = true ->
  quiet (changePassPhrase env prov opts).
Proof.
  intros Hf Hp Hn.
  unfold changePassPhrase, cpp_load, cpp_newpass, _getKeyOrDefault, cpp_commit.
  rewrite Hf, Hp, Hn. quiet_steps.
Qed.

Lemma changePassPhrase_noninteractive_witness :
  quiet_at (changePassPhrase (demo_env 18) (demo_provider true)
              (mkOpts PyNone (Some "/k") (Some "n") (Some "old") "sha256-base64" None false))
           (demo_cpp_state ["unread"]).
Proof.
  exact (changePassPhrase_noninteractive (demo_env 18) (demo_provider true)
           (mkOpts PyNone (Some "/k") (Some "n") (Some "old") "sha256-base64" None false)
           eq_refl eq_refl eq_refl (demo_cpp_state ["unread"])).
Defined.

Lemma KeyTypeMapping_key_type key :
  KeyTypeMapping (key_type key) = ret (match key_kind key with
                                       | RSA => "rsa" | DSA => "dsa"
                                       | EC => "ecdsa" | Ed25519 => "ed25519" end).
Proof. unfold KeyTypeMapping, key_type. destruct (key_kind key); reflexivity. Qed.

(** [_saveKey] with [--filename] naming a path that does not exist yet,
    and with [--no-passphrase] or [--pass], never reads the terminal nor
    shows a prompt, however the run ends. *)
Theorem saveKey_noninteractive env prov key opts s :
  truthy_s (o_filename opts) = true ->
  st_fs s !! opt_str (o_filename opts) = None ->
  (o_nopass opts = true \/ truthy_s (o_pass opts) = true) ->
  quiet_at (_saveKey env prov key opts) s.
Proof.
  intros Hf Hnone Hp.
  assert (Hr : saveKey_resolve env key opts s = (Ret (opt_str (o_filename opts)), s)).
  { unfold saveKey_resolve. rewrite KeyTypeMapping_key_type.
    unfold bind, ret. rewrite Hf. reflexivity. }
  assert (Hc : confirm_overwrite (opt_str (o_filename opts)) s = (Ret tt, s)).
  { unfold confirm_overwrite, bind, path_exists.
    rewrite (bool_decide_eq_false_2 _ (fun H => is_Some_None (eq_ind _ _ H _ Hnone))).
    reflexivity. }
  unfold _saveKey. unfold quiet_at. rewrite (bind_step _ _ _ _ _ Hr).
  rewrite (bind_step _ _ _ _ _ Hc). fold (quiet_at (A:=unit)
    (do_ saveKey_persist env prov key opts (opt_str (o_filename opts));
     saveKey_report prov key opts (opt_str (o_filename opts))) s).
  clear Hr Hc Hnone. revert s.
  change (quiet (do_ saveKey_persist env prov key opts (opt_str (o_filename opts));
                 saveKey_report prov key opts (opt_str (o_filename opts)))).
  unfold saveKey_persist, saveKey_pass, saveKey_report.
  destruct Hp as [Hn | Hp]; [rewrite Hn | destruct (o_nopass opts); [| rewrite Hp]];
    quiet_steps.
Qed.

Lemma saveKey_noninteractive_witness :
  quiet_at (_saveKey (demo_env 18) (demo_provider true) demo_key
              (mkOpts PyNone (Some "/k") None None "sha256-base64" None true))
           (mkSt ∅ ["unread"] []).
Proof.
  exact (saveKey_noninteractive (demo_env 18) (demo_provider true) demo_key
           (mkOpts PyNone (Some "/k") None None "sha256-base64" None true)
           (mkSt ∅ ["unread"] []) eq_refl eq_refl (or_introl eq_refl)).
Defined.

Lemma getKeyOrDefault_answer env opts t s a rest :
  truthy_s (o_filename opts) = false -> st_inp s = a :: rest ->
  _getKeyOrDefault env opts t s =
    (Ret (if String.eqb a "" then default_key_path env t else a),
     mkSt (st_fs s) rest (EPrompt (path_prompt (default_key_path env t)) :: st_log s)).
Proof.
  intros Hf Hi. unfold _getKeyOrDefault. rewrite Hf.
  destruct s as [fs inp lg]; simpl in Hi; subst inp.
  unfold default_key_path, path_prompt.
  destruct (env_windows env); reflexivity.
Qed.

(** Where [_saveKey] saves a key when no [--filename] is given: it asks
    twice.  The first question offers the default [~/.ssh/id_<type>] and
    takes a non-empty answer as it is; the second offers the result of the
    first and takes its answer with surrounding whitespace removed, falling
    back to the first result when that leaves nothing. *)
Theorem saveKey_path_two_questions env key opts s a1 a2 rest :
  truthy_s (o_filename opts) = false ->
  st_inp s = a1 :: a2 :: rest ->
  let d := default_key_path env (key_type_name key) in
  let d1 := if String.eqb a1 "" then d else a1 in
  saveKey_resolve env key opts s =
    (Ret (if String.eqb (strip a2) "" then d1 else strip a2),
     mkSt (st_fs s) rest
       (EPrompt ("Enter file in which to save the key (" ++ d1 ++ "): ") ::
        EPrompt (path_prompt d) :: st_log s)).
Proof.
  intros Hf Hi. cbv zeta.
  unfold saveKey_resolve. rewrite KeyTypeMapping_key_type.
  unfold bind at 1, ret at 1. cbv beta iota. rewrite Hf.
  assert (Hk : match key_kind key with
               | RSA => "rsa" | DSA => "dsa" | EC => "ecdsa" | Ed25519 => "ed25519" end
               = key_type_name key) by reflexivity.
  rewrite Hk.
  rewrite (bind_step _ _ _ _ _ (getKeyOrDefault_answer env opts _ s a1 (a2 :: rest) Hf Hi)).
  reflexivity.
Qed.

Lemma saveKey_path_two_questions_witness :
  saveKey_resolve (demo_env 18) demo_key demo_opts (mkSt ∅ [""; "  /tmp/k  "] []) =
    (Ret "/tmp/k",
     mkSt ∅ []
       [EPrompt "Enter file in which to save the key (/home/user/.ssh/id_ed25519): ";
        EPrompt "Enter file in which the key is (/home/user/.ssh/id_ed25519): "]).
Proof.
  exact (saveKey_path_two_questions (demo_env 18) demo_key demo_opts
           (mkSt ∅ [""; "  /tmp/k  "] []) "" "  /tmp/k  " [] eq_refl eq_refl).
Defined.





(** Each character [str(n)] produces is a decimal digit. *)
Definition is_digit_char (c : ascii) : Prop :=
  exists m, (m < 10)%N /\ c = ascii_of_N (48 + m).

Lemma digit_char_val m : (m < 10)%N ->
  digit_val (ascii_of_N (48 + m)) = Some (Z.of_N m).
Proof.
  intros Hm.
  assert (H : m = 0%N \/ m = 1%N \/ m = 2%N \/ m = 3%N \/ m = 4%N \/ m = 5%N \/
              m = 6%N \/ m = 7%N \/ m = 8%N \/ m = 9%N) by lia.
  repeat destruct H as [-> | H]; try reflexivity; subst; reflexivity.
Qed.

Lemma digit_char_not_space c : is_digit_char c -> is_space c = false.
Proof.
  intros [m [Hm ->]].
  assert (H : m = 0%N \/ m = 1%N \/ m = 2%N \/ m = 3%N \/ m = 4%N \/ m = 5%N \/
              m = 6%N \/ m = 7%N \/ m = 8%N \/ m = 9%N) by lia.
  repeat destruct H as [-> | H]; try reflexivity; subst; reflexivity.
Qed.

Lemma dec_digits_S f n acc :
  dec_digits (S f) n acc =
    if N.eqb (N.div n 10) 0 then String (ascii_of_N (48 + N.modulo n 10)) acc
    else dec_digits f (N.div n 10) (String (ascii_of_N (48 + N.modulo n 10)) acc).
Proof. reflexivity. Qed.

Lemma dec_digits_spec f : forall n acc, (n < 10 ^ N.of_nat (S f))%N ->
  exists ds, list_ascii_of_string (dec_digits (S f) n acc) =
               app ds (list_ascii_of_string acc) /\
             ds <> [] /\ Forall is_digit_char ds /\
             forall r a st, parse_digits (app ds r) a st false =
               parse_digits r (a * 10 ^ Z.of_nat (length ds) + Z.of_N n)%Z true false.
Proof.
  induction f as [| f IH]; intros n acc Hn; rewrite dec_digits_S.
  - assert (Hq : (n / 10 = 0)%N) by (apply N.div_small; simpl in Hn; lia).
    rewrite Hq. cbn [N.eqb].
    exists [ascii_of_N (48 + n mod 10)]. split; [reflexivity |].
    split; [discriminate |]. split.
    + constructor; [| constructor]. exists (n mod 10)%N. split; [apply N.mod_lt; lia | reflexivity].
    + intros r a st. cbn [app parse_digits].
      rewrite digit_char_val by (apply N.mod_lt; lia).
      rewrite N.mod_small by (simpl in Hn; lia). f_equal; simpl; lia.
  - set (d := ascii_of_N (48 + n mod 10)).
    assert (Hd : is_digit_char d) by (exists (n mod 10)%N; split; [apply N.mod_lt; lia | reflexivity]).
    destruct (N.eqb_spec (n / 10) 0) as [Hq | Hq].
    + exists [d]. split; [reflexivity |]. split; [discriminate |]. split.
      * constructor; [exact Hd | constructor].
      * intros r a st. cbn [app parse_digits]. unfold d.
        rewrite digit_char_val by (apply N.mod_lt; lia).
        assert (Hn' : n = (10 * (n / 10) + n mod 10)%N) by (apply N.div_mod; lia).
        rewrite Hq in Hn'. rewrite Hn' at 2. f_equal; simpl; lia.
    + assert (Hlt : (n / 10 < 10 ^ N.of_nat (S f))%N).
      { apply N.Div0.div_lt_upper_bound.
        rewrite Nat2N.inj_succ, N.pow_succ_r' in Hn. lia. }
      destruct (IH (n / 10)%N (String d acc) Hlt) as (ds & E & Hne & Hall & Hp).
      exists (app ds [d]). rewrite E. split; [rewrite <- app_assoc; reflexivity |].
      split; [destruct ds; [contradiction | discriminate] |]. split.
      * apply Forall_app. split; [exact Hall | constructor; [exact Hd | constructor]].
      * intros r a st. rewrite <- app_assoc. rewrite Hp. cbn [app parse_digits]. unfold d.
        rewrite digit_char_val by (apply N.mod_lt; lia).
        rewrite length_app, Nat2Z.inj_add, Z.pow_add_r by lia. cbn [length].
        assert (Hn' : n = (10 * (n / 10) + n mod 10)%N) by (apply N.div_mod; lia).
        rewrite Hn' at 3. f_equal; rewrite ?N2Z.inj_add, ?N2Z.inj_mul; simpl; lia.
Qed.

Lemma pos_lt_pow10 p : (N.pos p < 10 ^ N.of_nat (Pos.size_nat p))%N.
Proof.
  induction p as [p IH | p IH |]; cbn [Pos.size_nat];
    [rewrite Nat2N.inj_succ, N.pow_succ_r'; lia
    | rewrite Nat2N.inj_succ, N.pow_succ_r'; lia
    | simpl; lia].
Qed.

Lemma N_lt_pow10 n : (n < 10 ^ N.of_nat (S (N.size_nat n)))%N.
Proof.
  destruct n as [| p]; [simpl; lia |].
  cbn [N.size_nat]. rewrite Nat2N.inj_succ, N.pow_succ_r'.
  pose proof (pos_lt_pow10 p). lia.
Qed.

Lemma drop_while_all_false (p : ascii -> bool) l :
  Forall (fun c => p c = false) l -> drop_while p l = l.
Proof. intros H. destruct H as [| c r Hc _]; [reflexivity | simpl; rewrite Hc; reflexivity]. Qed.

Lemma strip_no_space l :
  Forall (fun c => is_space c = false) l ->
  list_ascii_of_string (strip (string_of_list_ascii l)) = l.
Proof.
  intros H. unfold strip. rewrite !list_ascii_of_string_of_list_ascii.
  rewrite (drop_while_all_false is_space l H).
  rewrite (drop_while_all_false is_space (rev l)) by (apply Forall_rev; exact H).
  apply rev_involutive.
Qed.

(** The decimal text of an int parses back to it: [int(str(z)) == z]. *)
Lemma parse_int_str_of_Z z : parse_int (str_of_Z z) = Some z.
Proof.
  unfold str_of_Z.
  set (n := Z.to_N (Z.abs z)).
  destruct (dec_digits_spec (N.size_nat n) n "" (N_lt_pow10 n))
    as (ds & E & Hne & Hall & Hp).
  cbn [list_ascii_of_string] in E. rewrite app_nil_r in E.
  assert (Hs : Forall (fun c => is_space c = false) ds)
    by (eapply List.Forall_impl; [| exact Hall]; apply digit_char_not_space).
  assert (Hv : parse_digits ds 0 false false = Some (Z.of_N n)).
  { rewrite <- (app_nil_r ds), Hp. reflexivity. }
  assert (Hn : Z.of_N n = Z.abs z) by (unfold n; apply Z2N.id; lia).
  unfold parse_int.
  destruct (Z.ltb_spec z 0) as [Hz | Hz].
  - rewrite <- (string_of_list_ascii_of_string ("-" ++ _)).
    rewrite strip_no_space.
    + change (list_ascii_of_string ("-" ++ ?x)) with ("-"%char :: list_ascii_of_string x); rewrite E. cbn [list_ascii_of_string app].
      rewrite Hv. cbn [option_map]. f_equal. lia.
    + change (list_ascii_of_string ("-" ++ ?x)) with ("-"%char :: list_ascii_of_string x); rewrite E. constructor; [reflexivity | exact Hs].
  - rewrite <- (string_of_list_ascii_of_string (dec_digits _ _ _)), E.
    rewrite strip_no_space by exact Hs.
    destruct ds as [| c r]; [contradiction |].
    assert (Hc : is_digit_char c) by (inversion Hall; assumption).
    transitivity (parse_digits (c :: r) 0 false false).
    + destruct Hc as [m [Hm ->]].
      assert (H : m = 0%N \/ m = 1%N \/ m = 2%N \/ m = 3%N \/ m = 4%N \/ m = 5%N \/
                  m = 6%N \/ m = 7%N \/ m = 8%N \/ m = 9%N) by lia.
      repeat destruct H as [-> | H]; try reflexivity; subst; reflexivity.
    + rewrite Hv. f_equal. lia.
Qed.

Lemma str_of_Z_nonempty z : str_of_Z z <> "".
Proof.
  unfold str_of_Z.
  set (n := Z.to_N (Z.abs z)).
  destruct (dec_digits_spec (N.size_nat n) n "" (N_lt_pow10 n))
    as (ds & E & Hne & _ & _).
  destruct (Z.ltb z 0); [discriminate |].
  intros Hs. rewrite Hs in E. cbn in E. destruct ds; [contradiction | discriminate].
Qed.

(** [-b] given on the command line as the decimal text of an integer [z]
    makes [generateRSAkey] and [generateDSAkey] ask the backend for a key
    of exactly [z] bits: the text is truthy, so no default replaces it, even
    for ["0"] or a negative number. *)
Theorem generate_bits_text env prov opts s z :
  o_bits opts = PyStr (str_of_Z z) ->
  generateRSAkey env prov opts s =
    bind (lift (p_generate prov (GenRSA z 65537)))
         (fun k => _saveKey env prov k opts) s /\
  generateDSAkey env prov opts s =
    bind (lift (p_generate prov (GenDSA z)))
         (fun k => _saveKey env prov k opts) s.
Proof.
  intros Hb.
  assert (Ht : truthy (o_bits opts) = true).
  { rewrite Hb. cbn [truthy]. apply negb_true_iff, String.eqb_neq, str_of_Z_nonempty. }
  unfold generateRSAkey, generateDSAkey, default_bits. rewrite Ht.
  unfold generate_with, rsa_request, dsa_request, py_int. rewrite Hb, parse_int_str_of_Z.
  split; reflexivity.
Qed.

Lemma generate_bits_text_witness :
  o_bits (set_bits (PyStr "0") demo_opts) = PyStr (str_of_Z 0) /\
  generateRSAkey (demo_env 18) (demo_provider true) (set_bits (PyStr "0") demo_opts)
      demo_save_state =
    bind (lift (p_generate (demo_provider true) (GenRSA 0 65537)))
         (fun k => _saveKey (demo_env 18) (demo_provider true) k
                     (set_bits (PyStr "0") demo_opts)) demo_save_state.
Proof.
  split; [reflexivity |].
  apply (proj1 (generate_bits_text (demo_env 18) (demo_provider true)
                  (set_bits (PyStr "0") demo_opts) demo_save_state 0 eq_refl)).
Defined.



(** [generateECDSAkey] looks the curve up by the text of [-b], not by its
    value: a truthy [-b] whose text is not ASCII raises
    [UnicodeEncodeError] in [.encode("ascii")], and an ASCII text that does
    not complete a curve name raises [KeyError]; either way before any key
    is generated, with the state unchanged. So ["0256"] or [" 256"] fail
    here although [int()] reads them as 256. *)
Theorem generateECDSAkey_curve_by_text env prov opts s :
  truthy (o_bits opts) = true ->
  (is_ascii (py_str (o_bits opts)) = false ->
     generateECDSAkey env prov opts s = (Raise UnicodeEncodeError, s)) /\
  (is_ascii (py_str (o_bits opts)) = true ->
   _curveTable ("ecdsa-sha2-nistp" ++ py_str (o_bits opts)) = None ->
     generateECDSAkey env prov opts s = (Raise KeyError, s)).
Proof.
  intros Ht.
  unfold generateECDSAkey, default_bits. rewrite Ht.
  unfold generate_with, ecdsa_request.
  split; [intros Ha | intros Ha Hc]; rewrite Ha; [reflexivity |].
  cbn [negb]. rewrite Hc. reflexivity.
Qed.

Lemma generateECDSAkey_curve_by_text_witness :
  parse_int "0256" = Some 256%Z /\
  truthy (o_bits (set_bits (PyStr "0256") demo_opts)) = true /\
  is_ascii (py_str (o_bits (set_bits (PyStr "0256") demo_opts))) = true /\
  _curveTable ("ecdsa-sha2-nistp" ++ py_str (o_bits (set_bits (PyStr "0256") demo_opts)))
    = None /\
  generateECDSAkey (demo_env 18) (demo_provider true) (set_bits (PyStr "0256") demo_opts)
      demo_save_state = (Raise KeyError, demo_save_state) /\
  is_ascii (py_str (o_bits (set_bits (PyStr (String "178" "") ) demo_opts))) = false /\
  generateECDSAkey (demo_env 18) (demo_provider true)
      (set_bits (PyStr (String "178" "")) demo_opts)
      demo_save_state = (Raise UnicodeEncodeError, demo_save_state).
Proof.
  split; [reflexivity |]. split; [reflexivity |]. split; [reflexivity |].
  split; [reflexivity |].
  split.
  { apply (proj2 (generateECDSAkey_curve_by_text (demo_env 18) (demo_provider true)
           (set_bits (PyStr "0256") demo_opts) demo_save_state eq_refl)); reflexivity. }
  split; [reflexivity |].
  apply (proj1 (generateECDSAkey_curve_by_text (demo_env 18) (demo_provider true)
           (set_bits (PyStr (String "178" "")) demo_opts) demo_save_state eq_refl)).
  reflexivity.
Defined.

(** [printFingerprint] and [displayPublicKey] never write or chmod a file,
    whatever they are given and however they end: the filesystem is left
    unchanged, and they only add prompts, prints and reads to the log. *)
Theorem inspection_never_writes env prov opts s :
  (st_fs (snd (printFingerprint env prov opts s)) = st_fs s /\
   exists l, st_log (snd (printFingerprint env prov opts s)) = (l ++ st_log s)%list /\
             Forall io_ev l) /\
  (st_fs (snd (displayPublicKey env prov opts s)) = st_fs s /\
   exists l, st_log (snd (displayPublicKey env prov opts s)) = (l ++ st_log s)%list /\
             Forall io_ev l).
Proof.
  split; [apply (ro_printFingerprint env prov opts s) | apply (ro_displayPublicKey env prov opts s)].
Qed.
